(** * Video and thumbnail upload handlers (src/api/videos.ts)

    A shallow embedding of [handlerUploadVideo], [getVideoAspectRatio],
    [processVideoForFastStart] and of the thumbnail handler that follows
    them, [handlerUploadThumbnail].

    - JavaScript numbers are IEEE-754 binary64 values: Rocq's primitive
      [float], with the same correctly rounded operations.
    - Values produced by [JSON.parse] are the inductive type [JSON];
      [undefined] is [None] in [JSValue].
    - The handlers run in a state-and-exception monad over a [World] made of
      the local disk, the video table, the bucket and a log of the calls made
      to the outside, in order.
    - Functions imported from other modules (the auth helpers, the record
      store, the S3 client) and the runtime (processes, [path.join],
      string/number conversion, randomness) are fields of [External] or
      small models named as such.  Disk writes and removals always succeed. *)

From Stdlib Require Import ZArith QArith Qabs Floats Ascii String List Strings.Byte.
From stdpp Require Import base option strings gmap list pretty.

Set Warnings "-register-all,-inexact-float".

Local Open Scope Z_scope.
Local Open Scope string_scope.
Local Open Scope list_scope.

(** ** JavaScript values *)

Inductive JSON : Type :=
| JNull
| JBool (b : bool)
| JNum (f : float)
| JStr (s : string)
| JArr (items : list JSON)
| JObj (props : list (string * JSON)).

(** [None] is [undefined]. *)
Definition JSValue : Type := option JSON.

(** What a [throw] carries.  [UserNotAuthenticatedError] is raised by the auth
    module and [StorageFailure] by the S3 module; the others are raised in
    the handlers or by the runtime. *)
Inductive Exn : Type :=
| BadRequestError (msg : string)
| NotFoundError (msg : string)
| UserForbiddenError (msg : string)
| UserNotAuthenticatedError
| StorageFailure
| JsError (msg : string)
| TypeError
| SyntaxError.

Inductive AspectRatio : Type := landscape | portrait | other.

(** The string a template literal prints for a value of the union
    ["landscape" | "portrait" | "other"]. *)
Definition aspectString (a : AspectRatio) : string :=
  match a with
  | landscape => "landscape"
  | portrait => "portrait"
  | other => "other"
  end.

(** Own-property lookup on an object built by [JSON.parse]. *)
Fixpoint ownProperty (props : list (string * JSON)) (k : string) : JSValue :=
  match props with
  | [] => None
  | (k', v) :: rest => if String.eqb k' k then Some v else ownProperty rest k
  end.

(** [v.k] for a value [v] that is neither [null] nor [undefined], for the
    keys the code reads ([streams], [width], [height]): only objects carry
    them, no prototype defines them. *)
Definition getProp (v : JSON) (k : string) : JSValue :=
  match v with
  | JObj props => ownProperty props k
  | _ => None
  end.

(** [v[0]] for a value [v] that is neither [null] nor [undefined]. *)
Definition getIndex0 (v : JSON) : JSValue :=
  match v with
  | JArr items => head items
  | JStr s => match s with
              | EmptyString => None
              | String c _ => Some (JStr (String c EmptyString))
              end
  | JObj props => ownProperty props "0"
  | _ => None
  end.

(** [v?.[0]] and [v?.k]: [undefined] when the receiver is nullish. *)
Definition optIndex0 (v : JSValue) : JSValue :=
  match v with
  | None | Some JNull => None
  | Some x => getIndex0 x
  end.

Definition optMember (v : JSValue) (k : string) : JSValue :=
  match v with
  | None | Some JNull => None
  | Some x => getProp x k
  end.

(** [json.k] without optional chaining: reading a property of [null] throws. *)
Definition member (v : JSON) (k : string) : Exn + JSValue :=
  match v with
  | JNull => inl TypeError
  | _ => inr (getProp v k)
  end.

(** ECMAScript ToBoolean, the test behind [!v]. *)
Definition ToBoolean (v : JSValue) : bool :=
  match v with
  | None => false
  | Some JNull => false
  | Some (JBool b) => b
  | Some (JNum f) => negb (PrimFloat.is_zero f || PrimFloat.is_nan f)
  | Some (JStr s) => negb (String.eqb s "")
  | Some (JArr _) => true
  | Some (JObj _) => true
  end.

Definition hasOwn (props : list (string * JSON)) (k : string) : bool :=
  match ownProperty props k with Some _ => true | None => false end.

Section Conversions.
(** The runtime's conversions between numbers and strings
    (ECMAScript StringToNumber and Number::toString). *)
Variable StringToNumber : string -> float.
Variable NumberToString : float -> string.

(** ECMAScript ToString on a parsed JSON value; [None] is the TypeError of
    an object whose own [toString] property hides the inherited method.
    An array prints its elements joined with commas, [null] as nothing. *)
Fixpoint ToString (v : JSON) : option string :=
  match v with
  | JNull => Some "null"
  | JBool true => Some "true"
  | JBool false => Some "false"
  | JNum f => Some (NumberToString f)
  | JStr s => Some s
  | JArr items =>
      (fix join (l : list JSON) : option string :=
         match l with
         | [] => Some ""
         | x :: rest =>
             let elt := match x with JNull => Some "" | _ => ToString x end in
             match rest with
             | [] => elt
             | _ => match elt, join rest with
                    | Some s, Some r => Some (s +:+ "," +:+ r)
                    | _, _ => None
                    end
             end
         end) items
  | JObj props => if hasOwn props "toString" then None else Some "[object Object]"
  end.

(** ECMAScript ToNumber, applied by [/] to each operand. *)
Definition ToNumber (v : JSValue) : Exn + float :=
  match v with
  | None => inr PrimFloat.nan
  | Some JNull => inr 0%float
  | Some (JBool true) => inr 1%float
  | Some (JBool false) => inr 0%float
  | Some (JNum f) => inr f
  | Some (JStr s) => inr (StringToNumber s)
  | Some o => match ToString o with
              | Some s => inr (StringToNumber s)
              | None => inl TypeError
              end
  end.
End Conversions.

(** [x << n] on 32-bit signed integers. *)
Definition toInt32 (x : Z) : Z :=
  let m := x mod 2 ^ 32 in
  if (2 ^ 31 <=? m)%Z then m - 2 ^ 32 else m.

Definition shl32 (x n : Z) : Z := toInt32 (Z.shiftl (toInt32 x) (n mod 32)).

(** ** [Buffer.toString("base64url")]

    The runtime's encoder (RFC 4648, section 5, without padding): three bytes
    make four characters, a last group of two makes three, of one makes two. *)

Definition base64url_alphabet : list ascii :=
  list_ascii_of_string
    "ABCDEFGHIJKLMNOPQRSTUVWXYZabcdefghijklmnopqrstuvwxyz0123456789-_".

Definition sextet (n : N) : ascii :=
  nth (N.to_nat n) base64url_alphabet "A"%char.

Fixpoint base64url (bs : list byte) : string :=
  match bs with
  | [] => ""
  | a :: [] =>
      let x := Byte.to_N a in
      String (sextet (x / 4))
        (String (sextet ((x mod 4) * 16)) "")
  | a :: b :: [] =>
      let x := Byte.to_N a in
      let y := Byte.to_N b in
      String (sextet (x / 4))
        (String (sextet ((x mod 4) * 16 + y / 16))
           (String (sextet ((y mod 16) * 4)) ""))
  | a :: b :: c :: rest =>
      let x := Byte.to_N a in
      let y := Byte.to_N b in
      let z := Byte.to_N c in
      String (sextet (x / 4))
        (String (sextet ((x mod 4) * 16 + y / 16))
           (String (sextet ((y mod 16) * 4 + z / 64))
              (String (sextet (z mod 64)) (base64url rest))))
  end%N.

(** [list.includes(x)] on strings. *)
Definition includes (l : list string) (x : string) : bool :=
  existsb (String.eqb x) l.

(** ** Requests, records and the outside world *)

(** A [File] of a multipart form: the size and media type the runtime
    reports, and the contents. *)
Record File : Type := {
  file_size : Z;
  file_type : string;
  file_bytes : list byte
}.

Inductive FormDataEntryValue : Type :=
| FormString (s : string)
| FormFile (f : File).

Definition FormData : Type := list (string * FormDataEntryValue).

(** [formData.get(name)]: the first entry of that name, [None] for [null]. *)
Fixpoint formData_get (fd : FormData) (name : string) : option FormDataEntryValue :=
  match fd with
  | [] => None
  | (k, v) :: rest => if String.eqb k name then Some v else formData_get rest name
  end.

(** The parts of a [BunRequest] the handlers read.  [body] is what
    [req.formData()] resolves to, [None] when it rejects. *)
Record BunRequest : Type := {
  params_videoId : option string;
  headers : list (string * string);
  body : option FormData
}.

(** The fields of [ApiConfig] the handlers read; [cfg.db] is the [videos]
    table of the [World]. *)
Record ApiConfig : Type := {
  jwtSecret : string;
  s3Bucket : string;
  s3Region : string;
  assetsRoot : string;
  port : string
}.

(** Modelled from the spec: the video record of ../db/videos (section 3: an
    identifier, the owning user, nullable playback and thumbnail URLs, and
    descriptive metadata). *)
Record Video : Type := {
  id : string;
  userID : string;
  title : string;
  description : string;
  videoURL : option string;
  thumbnailURL : option string
}.

Definition set_videoURL (v : Video) (url : string) : Video :=
  {| id := id v; userID := userID v; title := title v; description := description v;
     videoURL := Some url; thumbnailURL := thumbnailURL v |}.

Definition set_thumbnailURL (v : Video) (url : string) : Video :=
  {| id := id v; userID := userID v; title := title v; description := description v;
     videoURL := videoURL v; thumbnailURL := Some url |}.

(** [respondWithJSON(status, payload)]; [None] is a [null] payload. *)
Record Response : Type := {
  status : Z;
  payload : option Video
}.

Definition respondWithJSON (code : Z) (p : option Video) : Response :=
  {| status := code; payload := p |}.

(** A finished subprocess: exit code, standard output and standard error.
    Standard output is kept as the value [JSON.parse] makes of the text,
    [None] when [JSON.parse] throws. *)
Record Proc : Type := {
  exited : Z;
  stdout : option JSON;
  stderr : string
}.

(** Every call that leaves the handler, in the order made. *)
Inductive Event : Type :=
| EvGetBearerToken
| EvValidateJWT
| EvGetVideo (videoId : string)
| EvUpdateVideo (v : Video)
| EvFormData
| EvWrite (path : string)
| EvRm (path : string)
| EvSpawn (argv : list string)
| EvConsoleError
| EvUploadVideoToS3 (key path contentType : string)
| EvRandomBytes (n : nat).

Record World : Type := {
  files : gmap string (list byte);
  videos : gmap string Video;
  objects : gmap string (list byte * string);
  drawn : nat;
  log : list Event
}.

Definition with_files (w : World) (f : gmap string (list byte)) : World :=
  {| files := f; videos := videos w; objects := objects w; drawn := drawn w; log := log w |}.
Definition with_videos (w : World) (v : gmap string Video) : World :=
  {| files := files w; videos := v; objects := objects w; drawn := drawn w; log := log w |}.
Definition with_objects (w : World) (o : gmap string (list byte * string)) : World :=
  {| files := files w; videos := videos w; objects := o; drawn := drawn w; log := log w |}.
Definition with_drawn (w : World) (n : nat) : World :=
  {| files := files w; videos := videos w; objects := objects w; drawn := n; log := log w |}.
Definition with_log (w : World) (l : list Event) : World :=
  {| files := files w; videos := videos w; objects := objects w; drawn := drawn w; log := l |}.

(** What the handlers import or get from the runtime and this file does not
    define. *)
Record External : Type := {
  (** ../auth: the bearer token of the headers, [None] when it throws. *)
  getBearerToken : list (string * string) -> option string;
  (** ../auth: the user a token belongs to, [None] when it throws. *)
  validateJWT : string -> string -> option string;
  (** ECMAScript StringToNumber and Number::toString. *)
  StringToNumber : string -> float;
  NumberToString : float -> string;
  (** [path.join] of node:path. *)
  path_join : list string -> string;
  (** The ffprobe binary, run on an argument vector over the local disk,
      which it reads and does not change. *)
  ffprobe : list string -> gmap string (list byte) -> Proc;
  (** The ffmpeg binary: its result and the disk it leaves. *)
  ffmpeg : list string -> gmap string (list byte) -> Proc * gmap string (list byte);
  (** Whether the object store accepts a put of these bytes under a key. *)
  putObject : ApiConfig -> string -> list byte -> string -> bool;
  (** The bytes the random generator hands out, by position. *)
  entropy : nat -> byte
}.

(** ** The monad: state and exceptions *)

Definition M (A : Type) : Type := World -> (Exn + A) * World.

#[global] Instance M_ret : MRet M := fun A (a : A) (w : World) => (inr a, w).

#[global] Instance M_bind : MBind M :=
  fun A B (f : A -> M B) (m : M A) (w : World) =>
    match m w with
    | (inl e, w') => (inl e, w')
    | (inr a, w') => f a w'
    end.

Definition throw {A : Type} (e : Exn) : M A := fun w => (inl e, w).

(** [try { m } catch (e) { h e }] *)
Definition try_catch {A : Type} (m : M A) (h : Exn -> M A) : M A :=
  fun w => match m w with
           | (inl e, w') => h e w'
           | (inr a, w') => (inr a, w')
           end.

Definition emit (e : Event) : M unit :=
  fun w => (inr tt, with_log w (log w ++ [e])).

Definition liftE {A : Type} (r : Exn + A) : M A := fun w => (r, w).

Definition gets {A : Type} (f : World -> A) : M A := fun w => (inr (f w), w).

Definition modify (f : World -> World) : M unit := fun w => (inr tt, f w).

(** ** The handlers *)

Section Handlers.
Variable ext : External.

(** *** Calls to the outside *)

(** Modelled from the spec: [getBearerToken] of ../auth (section 4.5: a
    missing or invalid credential fails with Unauthorized). *)
Definition call_getBearerToken (h : list (string * string)) : M string :=
  emit EvGetBearerToken;;
  match getBearerToken ext h with
  | Some token => mret token
  | None => throw UserNotAuthenticatedError
  end.

(** Modelled from the spec: [validateJWT] of ../auth (section 6:
    [validate(token, secret) -> userIdentifier], fails on an expired, invalid
    or malformed token; section 4.5: that failure is Unauthorized). *)
Definition call_validateJWT (token secret : string) : M string :=
  emit EvValidateJWT;;
  match validateJWT ext token secret with
  | Some user => mret user
  | None => throw UserNotAuthenticatedError
  end.

(** Modelled from the spec: [getVideo] of ../db/videos (section 6:
    [get(id) -> Record | absent]). *)
Definition getVideo (videoId : string) : M (option Video) :=
  emit (EvGetVideo videoId);;
  gets (fun w => videos w !! videoId).

(** Modelled from the spec: [updateVideo] of ../db/videos (section 6:
    [update(Record) -> void]); it replaces the record stored under the
    record's identifier. *)
Definition updateVideo (v : Video) : M unit :=
  emit (EvUpdateVideo v);;
  modify (fun w => with_videos w (alter (fun _ => v) (id v) (videos w))).

(** [req.formData()]: reads the request body. *)
Definition req_formData (req : BunRequest) : M FormData :=
  emit EvFormData;;
  match body req with
  | Some fd => mret fd
  | None => throw TypeError
  end.

(** [Bun.write(path, data)] *)
Definition Bun_write (path : string) (data : list byte) : M unit :=
  emit (EvWrite path);;
  modify (fun w => with_files w (<[path := data]> (files w))).

(** [rm(path, { force: true })]: a missing file is not an error. *)
Definition rm_force (path : string) : M unit :=
  emit (EvRm path);;
  modify (fun w => with_files w (delete path (files w))).

(** [Bun.spawn] of ffprobe, awaited to its end. *)
Definition spawn_ffprobe (argv : list string) : M Proc :=
  emit (EvSpawn argv);;
  gets (fun w => ffprobe ext argv (files w)).

(** [Bun.spawn] of ffmpeg, awaited to its end. *)
Definition spawn_ffmpeg (argv : list string) : M Proc :=
  emit (EvSpawn argv);;
  run ← gets (fun w => ffmpeg ext argv (files w));
  modify (fun w => with_files w (snd run));;
  mret (fst run).

Definition console_error : M unit := emit EvConsoleError.

(** Modelled from the spec: [uploadVideoToS3] of ../s3 (section 4.4: sends
    the local file to the object store under the key, fails with
    StorageFailure on any transport or storage error, and an upload either
    fully lands under the key or not at all). *)
Definition uploadVideoToS3 (cfg : ApiConfig) (key path contentType : string) : M unit :=
  emit (EvUploadVideoToS3 key path contentType);;
  local ← gets (fun w => files w !! path);
  match local with
  | None => throw StorageFailure
  | Some data =>
      if putObject ext cfg key data contentType
      then modify (fun w => with_objects w (<[key := (data, contentType)]> (objects w)))
      else throw StorageFailure
  end.

(** [randomBytes(n)] of node:crypto: the next [n] bytes of the generator. *)
Definition randomBytes (n : nat) : M (list byte) :=
  emit (EvRandomBytes n);;
  bytes ← gets (fun w => map (entropy ext) (seq (drawn w) n));
  modify (fun w => with_drawn w (drawn w + n)%nat);;
  mret bytes.

(** *** getVideoAspectRatio *)

Definition ffprobe_argv (filepath : string) : list string :=
  ["ffprobe"; "-v"; "error"; "-select_streams"; "v:0"; "-show_entries";
   "stream=width,height"; "-of"; "json"; filepath].

(** [Math.abs(ratio - 16 / 9) < TOLERANCE] and its sibling, in binary64. *)
Definition classifyRatio (TOLERANCE ratio : float) : AspectRatio :=
  if (abs (ratio - 16 / 9) <? TOLERANCE)%float then landscape
  else if (abs (ratio - 9 / 16) <? TOLERANCE)%float then portrait
  else other.

Definition getVideoAspectRatio (filepath : string) : M AspectRatio :=
  let TOLERANCE := 0.05%float in
  proc ← spawn_ffprobe (ffprobe_argv filepath);
  if negb (exited proc =? 0)%Z then
    throw (JsError ("ffprobe failed with exit code " +:+ pretty (exited proc)
                    +:+ ": " +:+ stderr proc))
  else
    '(width, height) ←
      try_catch
        (match stdout proc with
         | None => throw SyntaxError
         | Some json =>
             streams ← liftE (member json "streams");
             let width := optMember (optIndex0 streams) "width" in
             streams' ← liftE (member json "streams");
             let height := optMember (optIndex0 streams') "height" in
             if negb (ToBoolean width) || negb (ToBoolean height)
             then throw (JsError "Width or height not found in ffprobe output")
             else mret (width, height)
         end)
        (fun e => console_error;; throw e);
    w ← liftE (ToNumber (StringToNumber ext) (NumberToString ext) width);
    h ← liftE (ToNumber (StringToNumber ext) (NumberToString ext) height);
    let ratio := (w / h)%float in
    mret (classifyRatio TOLERANCE ratio).

(** *** processVideoForFastStart *)

Definition ffmpeg_argv (inputFilePath outputFilePath : string) : list string :=
  ["ffmpeg"; "-i"; inputFilePath; "-movflags"; "faststart"; "-map_metadata"; "0";
   "-codec"; "copy"; "-f"; "mp4"; outputFilePath].

Definition processVideoForFastStart (inputFilePath : string) : M string :=
  let outputFilePath := inputFilePath +:+ ".processed" in
  proc ← spawn_ffmpeg (ffmpeg_argv inputFilePath outputFilePath);
  if negb (exited proc =? 0)%Z then
    throw (JsError ("ffmpeg failed with exit code " +:+ pretty (exited proc)
                    +:+ ": " +:+ stderr proc))
  else mret outputFilePath.

(** *** handlerUploadVideo *)

Definition handlerUploadVideo (cfg : ApiConfig) (req : BunRequest) : M Response :=
  let MAX_UPLOAD_SIZE := shl32 1 30 in
  match params_videoId req with
  | None => throw (BadRequestError "Invalid video ID")
  | Some videoId =>
    if String.eqb videoId "" then throw (BadRequestError "Invalid video ID") else
    token ← call_getBearerToken (headers req);
    user ← call_validateJWT token (jwtSecret cfg);
    found ← getVideo videoId;
    match found with
    | None => throw (NotFoundError "Couldn't find video")
    | Some video =>
      if negb (String.eqb (userID video) user)
      then throw (UserForbiddenError "Not authorized to update this video") else
      formData ← req_formData req;
      match formData_get formData "video" with
      | Some (FormFile file) =>
        if (file_size file >? MAX_UPLOAD_SIZE)%Z
        then throw (BadRequestError "File exceeds size limit (1GB)") else
        if negb (String.eqb (file_type file) "video/mp4")
        then throw (BadRequestError "Invalid file type, only MP4 is allowed") else
        let tempFilePath := path_join ext ["/tmp"; videoId +:+ ".mp4"] in
        Bun_write tempFilePath (file_bytes file);;
        aspectRatio ← getVideoAspectRatio tempFilePath;
        let key := aspectString aspectRatio +:+ "/" +:+ videoId +:+ ".mp4" in
        uploadVideoToS3 cfg key tempFilePath "video/mp4";;
        let url := "https://" +:+ s3Bucket cfg +:+ ".s3." +:+ s3Region cfg
                   +:+ ".amazonaws.com/" +:+ key in
        let video := set_videoURL video url in
        updateVideo video;;
        rm_force tempFilePath;;
        mret (respondWithJSON 200 (Some video))
      | _ => throw (BadRequestError "Video file missing")
      end
    end
  end.

(** *** handlerUploadThumbnail *)

Definition handlerUploadThumbnail (cfg : ApiConfig) (req : BunRequest) : M Response :=
  match params_videoId req with
  | None => throw (BadRequestError "Invalid video ID")
  | Some videoId =>
    if String.eqb videoId "" then throw (BadRequestError "Invalid video ID") else
    token ← call_getBearerToken (headers req);
    user ← call_validateJWT token (jwtSecret cfg);
    found ← getVideo videoId;
    match found with
    | None => throw (NotFoundError "Couldn't find video")
    | Some video =>
      if negb (String.eqb (userID video) user)
      then throw (UserForbiddenError "Not authorized to update this video") else
      formData ← req_formData req;
      match formData_get formData "thumbnail" with
      | Some (FormFile file) =>
        let MAX_UPLOAD_SIZE := shl32 10 20 in
        if (file_size file >? MAX_UPLOAD_SIZE)%Z
        then throw (BadRequestError "Thumbnail file exceeds the maximum allowed size of 10MB") else
        let mediaType := file_type file in
        if String.eqb mediaType ""
        then throw (BadRequestError "Missing Content-Type for thumbnail") else
        (* [await file.arrayBuffer()] is an object, never falsy *)
        let fileData := file_bytes file in
        let allowedExtensions := ["image/jpeg"; "image/png"] in
        let extension := file_type file in
        if String.eqb extension "" || negb (includes allowedExtensions extension)
        then throw (BadRequestError "Invalid thumbnail file type") else
        random ← randomBytes 32;
        let randomName := base64url random in
        let thumbnailFilename := randomName +:+ "." +:+ extension in
        let thumbnailPath := path_join ext [assetsRoot cfg; "thumbnails"; thumbnailFilename] in
        Bun_write thumbnailPath fileData;;
        let video :=
          set_thumbnailURL video
            ("http://localhost:" +:+ port cfg +:+ "/assets/thumbnails/" +:+ thumbnailFilename) in
        updateVideo video;;
        mret (respondWithJSON 200 None)
      | _ => throw (BadRequestError "Thumbnail file missing")
      end
    end
  end.

End Handlers.

(** ** Names for what the statements below talk about *)

(** The events a run added to the log. *)
Definition events_since (w w' : World) : list Event :=
  drop (length (log w)) (log w').

(** [json.streams?.[0]?.k]: the field [k] of the first stream of a probe
    output that is not [null]. *)
Definition firstStreamField (json : JSON) (k : string) : JSValue :=
  optMember (optIndex0 (getProp json "streams")) k.

(** The identity the request's credential resolves to, if any. *)
Definition resolvedUser (ext : External) (cfg : ApiConfig) (req : BunRequest) : option string :=
  match getBearerToken ext (headers req) with
  | Some token => validateJWT ext token (jwtSecret cfg)
  | None => None
  end.

(** The local file the upload is staged in. *)
Definition tempFilePath (ext : External) (videoId : string) : string :=
  path_join ext ["/tmp"; videoId +:+ ".mp4"].

(** A request that passes the identifier, credential, record and ownership
    checks and whose form carries a [video] file: the one the size and type
    checks then look at. *)
Definition reachesValidation (ext : External) (cfg : ApiConfig) (req : BunRequest)
    (w : World) (videoId : string) (video : Video) (file : File) : Prop :=
  params_videoId req = Some videoId /\ videoId <> "" /\
  resolvedUser ext cfg req = Some (userID video) /\
  videos w !! videoId = Some video /\
  exists fd, body req = Some fd /\ formData_get fd "video" = Some (FormFile file).

(** A request that reaches [Bun.write]: validated, within the size cap and of
    the accepted type. *)
Definition reachesStaging (ext : External) (cfg : ApiConfig) (req : BunRequest)
    (w : World) (videoId : string) (video : Video) (file : File) : Prop :=
  reachesValidation ext cfg req w videoId video file /\
  (file_size file <= 2 ^ 30)%Z /\ file_type file = "video/mp4".

(** The world once the upload is staged: the file written, five calls made. *)
Definition stagedWorld (ext : External) (w : World) (videoId : string) (file : File) : World :=
  {| files := <[tempFilePath ext videoId := file_bytes file]> (files w);
     videos := videos w; objects := objects w; drawn := drawn w;
     log := log w ++ [EvGetBearerToken; EvValidateJWT; EvGetVideo videoId; EvFormData;
                      EvWrite (tempFilePath ext videoId)] |}.

(** The calls of a run up to the start of the probe. *)
Definition stagingEvents (ext : External) (videoId : string) : list Event :=
  [EvGetBearerToken; EvValidateJWT; EvGetVideo videoId; EvFormData;
   EvWrite (tempFilePath ext videoId);
   EvSpawn (ffprobe_argv (tempFilePath ext videoId))].

(** The events of the identifier, credential, record and body steps. *)
Definition gateEvent (ev : Event) : bool :=
  match ev with
  | EvGetBearerToken | EvValidateJWT | EvGetVideo _ | EvFormData => true
  | _ => false
  end.

(** The events a staged run can add after the probe has started and before
    the record update. *)
Definition afterProbe (ev : Event) : bool :=
  match ev with
  | EvConsoleError | EvUploadVideoToS3 _ _ _ => true
  | _ => false
  end.

(** The run from [w] to [w'] read nothing of the request body and wrote no
    local file. *)
Definition bodyUnread (w w' : World) : Prop :=
  files w' = files w /\
  (EvFormData ∉ events_since w w') /\
  (forall path, EvWrite path ∉ events_since w w').

(** The run from [w] to [w'] wrote no local file and started no subprocess. *)
Definition nothingStarted (w w' : World) : Prop :=
  files w' = files w /\
  (forall path, EvWrite path ∉ events_since w w') /\
  (forall argv, EvSpawn argv ∉ events_since w w').

(** The values [!v] is true of: a missing field ([undefined]), [null], a zero
    of either sign, NaN, the empty string and [false]. *)
Inductive Falsy : JSValue -> Prop :=
| falsy_missing : Falsy None
| falsy_null : Falsy (Some JNull)
| falsy_zero (f : float) : PrimFloat.is_zero f = true -> Falsy (Some (JNum f))
| falsy_nan (f : float) : PrimFloat.is_nan f = true -> Falsy (Some (JNum f))
| falsy_empty : Falsy (Some (JStr ""))
| falsy_false : Falsy (Some (JBool false)).

(** The wording of the spec, section 4.1 and section 4.3. *)

(** [|width / height - 16/9| < 0.05] and its sibling read in exact rational
    arithmetic. *)
Definition Qltb (x y : Q) : bool := negb (Qle_bool y x).

Definition classifyExact (width height : Z) : AspectRatio :=
  let ratio := (inject_Z width / inject_Z height)%Q in
  if Qltb (Qabs (ratio - (16 # 9))%Q) (1 # 20)%Q then landscape
  else if Qltb (Qabs (ratio - (9 # 16))%Q) (1 # 20)%Q then portrait
  else other.

(** [{classification}/{identifier}.mp4] *)
Definition deriveKey (classification : AspectRatio) (identifier : string) : string :=
  aspectString classification +:+ "/" +:+ identifier +:+ ".mp4".

(** [https://{bucket}.s3.{region}.amazonaws.com/{key}] *)
Definition playbackURL (bucket region key : string) : string :=
  "https://" +:+ bucket +:+ ".s3." +:+ region +:+ ".amazonaws.com/" +:+ key.

(** ** A concrete outside world to run the handlers in *)

Module Sample.

Definition lookupHeader (h : list (string * string)) (k : string) : option string :=
  snd <$> List.find (fun kv => String.eqb (fst kv) k) h.

(** Accepts [Authorization: Bearer <token>]. *)
Definition bearer (h : list (string * string)) : option string :=
  match lookupHeader h "Authorization" with
  | Some v =>
      if String.prefix "Bearer " v
      then Some (String.substring 7 (String.length v - 7) v)
      else None
  | None => None
  end.

(** One known token, of the user alice. *)
Definition jwt (token secret : string) : option string :=
  if String.eqb token "alice-token" && String.eqb secret "secret"
  then Some "alice" else None.

(** Joins clean segments; the samples use no other. *)
Definition join (segments : list string) : string := String.concat "/" segments.

(** Copies its input (third argument) to its output (last argument). *)
Definition remux (argv : list string) (disk : gmap string (list byte))
    : Proc * gmap string (list byte) :=
  match disk !! nth 2 argv "" with
  | Some data =>
      ({| exited := 0; stdout := None; stderr := "" |}, <[List.last argv "" := data]> disk)
  | None =>
      ({| exited := 1; stdout := None; stderr := "No such file or directory" |}, disk)
  end.

(** An outside world whose ffprobe always answers [probe] and whose object
    store accepts a put iff [store] is true.  No sample converts a numeric
    string, so string conversion is the answer for a string that is not a
    numeric literal and the printer is never read. *)
Definition ext (probe : Proc) (store : bool) : External :=
  {| getBearerToken := bearer;
     validateJWT := jwt;
     StringToNumber := fun _ => PrimFloat.nan;
     NumberToString := fun _ => "";
     path_join := join;
     ffprobe := fun _ _ => probe;
     ffmpeg := remux;
     putObject := fun _ _ _ _ => store;
     entropy := fun n => default Byte.x00 (Byte.of_N (N.of_nat n mod 256)) |}.

(** The JSON ffprobe prints for one stream with the given width and height. *)
Definition probed (width height : JSON) : Proc :=
  {| exited := 0;
     stdout := Some (JObj [("programs", JArr []);
                           ("streams", JArr [JObj [("width", width); ("height", height)]])]);
     stderr := "" |}.

Definition probeFailed : Proc :=
  {| exited := 1; stdout := None; stderr := "Invalid data found when processing input" |}.

Definition cfg : ApiConfig :=
  {| jwtSecret := "secret"; s3Bucket := "tubely"; s3Region := "us-east-1";
     assetsRoot := "assets"; port := "8091" |}.

Definition video : Video :=
  {| id := "v1"; userID := "alice"; title := "Holiday"; description := "";
     videoURL := None; thumbnailURL := None |}.

(** A record of another user. *)
Definition videoOfBob : Video :=
  {| id := "v2"; userID := "bob"; title := "Garden"; description := "";
     videoURL := None; thumbnailURL := None |}.

Definition world : World :=
  {| files := ∅; videos := {[ "v1" := video; "v2" := videoOfBob ]}; objects := ∅;
     drawn := 0; log := [] |}.

Definition fileOf (size : Z) (mediaType : string) : File :=
  {| file_size := size; file_type := mediaType; file_bytes := [Byte.x00; Byte.x00; Byte.x00; Byte.x18] |}.

Definition upload (field : string) (file : File) : BunRequest :=
  {| params_videoId := Some "v1";
     headers := [("Authorization", "Bearer alice-token")];
     body := Some [(field, FormFile file)] |}.

(** An upload of a small MP4 for [videoId] under the bearer token [token]. *)
Definition requestFor (videoId token : string) : BunRequest :=
  {| params_videoId := Some videoId;
     headers := [("Authorization", "Bearer " +:+ token)];
     body := Some [("video", FormFile (fileOf 1000 "video/mp4"))] |}.

(** No identifier, no credential. *)
Definition anonymous : BunRequest :=
  {| params_videoId := None; headers := []; body := None |}.

End Sample.

(** ** Further names, for the properties of whole runs *)

(** The request names a record and comes from its authenticated owner: it
    passes the identifier, credential, record and ownership checks. *)
Definition fromOwner (ext : External) (cfg : ApiConfig) (req : BunRequest)
    (w : World) (videoId : string) (video : Video) : Prop :=
  params_videoId req = Some videoId /\ videoId <> "" /\
  resolvedUser ext cfg req = Some (userID video) /\
  videos w !! videoId = Some video.

(** The events of the credential and record steps. *)
Definition authEvent (ev : Event) : bool :=
  match ev with
  | EvGetBearerToken | EvValidateJWT | EvGetVideo _ => true
  | _ => false
  end.

(** The name the thumbnail handler gives a file in the world [w]. *)
Definition thumbnailName (ext : External) (w : World) (file : File) : string :=
  base64url (map (entropy ext) (seq (drawn w) 32)) +:+ "." +:+ file_type file.

(** The world an accepted thumbnail upload leaves. *)
Definition thumbnailStored (ext : External) (cfg : ApiConfig) (w : World)
    (videoId : string) (video : Video) (file : File) : World :=
  let name := thumbnailName ext w file in
  let video' :=
    set_thumbnailURL video
      ("http://localhost:" +:+ port cfg +:+ "/assets/thumbnails/" +:+ name) in
  {| files := <[path_join ext [assetsRoot cfg; "thumbnails"; name] := file_bytes file]>
                (files w);
     videos := alter (fun _ => video') (id video') (videos w);
     objects := objects w;
     drawn := (drawn w + 32)%nat;
     log := log w ++ [EvGetBearerToken; EvValidateJWT; EvGetVideo videoId; EvFormData;
                      EvRandomBytes 32;
                      EvWrite (path_join ext [assetsRoot cfg; "thumbnails"; name]);
                      EvUpdateVideo video'] |}.

(** ** The encoding in the words of RFC 4648

    Sections 4 and 5 of the RFC: the input is read in groups of 24 bits,
    three bytes joined most significant first, and each group is written as
    four 6-bit numbers, each the index of a character of the alphabet.  A
    final group of 8 bits is padded on the right with four zero bits and
    written as two characters, one of 16 bits with two zero bits and written
    as three.  The runtime's base64url adds no padding character.  This is
    the encoding as the standard words it, to compare [base64url] with. *)

(** The [i]-th 6-bit number of [n], counted from the least significant. *)
Definition sixBits (n i : N) : N := ((n / 64 ^ i) mod 64)%N.

Definition rfc4648_char (n i : N) : ascii :=
  nth (N.to_nat (sixBits n i)) base64url_alphabet "A"%char.

Fixpoint rfc4648_base64url (bs : list byte) : string :=
  match bs with
  | [] => ""
  | a :: [] =>
      let n := (Byte.to_N a * 2 ^ 4)%N in
      String (rfc4648_char n 1) (String (rfc4648_char n 0) "")
  | a :: b :: [] =>
      let n := ((Byte.to_N a * 2 ^ 8 + Byte.to_N b) * 2 ^ 2)%N in
      String (rfc4648_char n 2)
        (String (rfc4648_char n 1) (String (rfc4648_char n 0) ""))
  | a :: b :: c :: rest =>
      let n := (Byte.to_N a * 2 ^ 16 + Byte.to_N b * 2 ^ 8 + Byte.to_N c)%N in
      String (rfc4648_char n 3)
        (String (rfc4648_char n 2)
           (String (rfc4648_char n 1)
              (String (rfc4648_char n 0) (rfc4648_base64url rest))))
  end.

(** * Properties *)

(** ** Running the monad *)

Ltac munfold :=
  unfold mbind, mret, M_bind, M_ret, throw, try_catch, emit, liftE, gets, modify in *.

Lemma SFeqb_finite_refl s m e : SFeqb (S754_finite s m e) (S754_finite s m e) = true.
Proof.
  unfold SFeqb, SFcompare.
  destruct s; rewrite Z.compare_refl;
    rewrite ?Pos.compare_refl, ?Pos.compare_cont_refl; reflexivity.
Qed.

Lemma positive_truthy (f : float) :
  (0 <? f)%float = true -> ToBoolean (Some (JNum f)) = true.
Proof.
  intros H. unfold ToBoolean, PrimFloat.is_zero, PrimFloat.is_nan.
  rewrite FloatAxioms.ltb_spec in H. rewrite !FloatAxioms.eqb_spec.
  replace (Prim2SF 0) with (S754_zero false) in H by reflexivity.
  replace (Prim2SF PrimFloat.zero) with (S754_zero false) by reflexivity.
  destruct (Prim2SF f) as [s | s | | s m e]; try destruct s; try discriminate H; try reflexivity.
  rewrite SFeqb_finite_refl. reflexivity.
Qed.

(** A run of [getVideoAspectRatio] changes nothing but the log: it returns
    after the spawn alone, or throws after the spawn and at most one
    [console.error]; it never throws a BadRequest. *)
Lemma getVideoAspectRatio_run (ext : External) (path : string) (w : World) :
  (exists a,
      getVideoAspectRatio ext path w
      = (inr a, with_log w (log w ++ [EvSpawn (ffprobe_argv path)])))
  \/ (exists e evs,
        getVideoAspectRatio ext path w
        = (inl e, with_log w (log w ++ EvSpawn (ffprobe_argv path) :: evs))
        /\ (evs = [] \/ evs = [EvConsoleError])
        /\ forall msg, e <> BadRequestError msg).
Proof.
  unfold getVideoAspectRatio, spawn_ffprobe, console_error. munfold. simpl.
  destruct (negb _).
  { right. eexists _, []. split; [reflexivity |]. split; [by left | discriminate]. }
  destruct (stdout _) as [json|]; simpl.
  2:{ right. eexists _, [_]. simpl. rewrite <- app_assoc.
      split; [reflexivity |]. split; [by right | discriminate]. }
  destruct (member json "streams") as [e|streams] eqn:Hm; simpl.
  { right. eexists _, [_]. simpl. rewrite <- app_assoc.
    split; [reflexivity |]. split; [by right |].
    destruct json; simpl in Hm; inversion Hm; discriminate. }
  destruct (negb _ || negb _); simpl.
  { right. eexists _, [_]. simpl. rewrite <- app_assoc.
    split; [reflexivity |]. split; [by right | discriminate]. }
  destruct (ToNumber _ _ _) as [e|x] eqn:Hx; simpl.
  { right. eexists _, []. split; [reflexivity |]. split; [by left |].
    unfold ToNumber in Hx. repeat case_match; inversion Hx; discriminate. }
  destruct (ToNumber _ _ (optMember _ "height")) as [e|y] eqn:Hy; simpl.
  { right. eexists _, []. split; [reflexivity |]. split; [by left |].
    unfold ToNumber in Hy. repeat case_match; inversion Hy; discriminate. }
  left. eexists. reflexivity.
Qed.

Arguments getVideoAspectRatio : simpl never.
Arguments includes : simpl never.

Ltac hunfold :=
  unfold call_getBearerToken, call_validateJWT, getVideo, updateVideo, req_formData,
    Bun_write, rm_force, uploadVideoToS3 in *;
  munfold.

Lemma eqb_empty_false (s : string) : s <> "" -> String.eqb s "" = false.
Proof. intros H. by apply String.eqb_neq. Qed.

Lemma handlerUploadVideo_staged ext cfg req w videoId video file :
  reachesStaging ext cfg req w videoId video file ->
  let tmp := tempFilePath ext videoId in
  let w1 := stagedWorld ext w videoId file in
  handlerUploadVideo ext cfg req w =
    match getVideoAspectRatio ext tmp w1 with
    | (inl e, w2) => (inl e, w2)
    | (inr a, w2) =>
        let key := deriveKey a videoId in
        if putObject ext cfg key (file_bytes file) "video/mp4"
        then
          let v' := set_videoURL video (playbackURL (s3Bucket cfg) (s3Region cfg) key) in
          (inr (respondWithJSON 200 (Some v')),
           {| files := delete tmp (files w2);
              videos := alter (fun _ => v') (id v') (videos w2);
              objects := <[key := (file_bytes file, "video/mp4")]> (objects w2);
              drawn := drawn w2;
              log := log w2 ++ [EvUploadVideoToS3 key tmp "video/mp4"; EvUpdateVideo v';
                                EvRm tmp] |})
        else (inl StorageFailure,
              with_log w2 (log w2 ++ [EvUploadVideoToS3 key tmp "video/mp4"]))
    end.
Proof.
  intros [(Hid & Hne & Huser & Hvid & fd & Hbody & Hget) [Hsize Htype]] tmp w1.
  unfold resolvedUser in Huser.
  destruct (getBearerToken ext (headers req)) as [token|] eqn:Htok; [|discriminate].
  unfold handlerUploadVideo. rewrite Hid, (eqb_empty_false _ Hne).
  hunfold. simpl. rewrite Htok. simpl. rewrite Huser. simpl. rewrite Hvid.
  rewrite String.eqb_refl. simpl. rewrite Hbody. simpl. rewrite Hget.
  replace (file_size file >? shl32 1 30)%Z with false
    by (symmetry; rewrite Z.gtb_ltb; apply Z.ltb_ge; exact Hsize).
  rewrite Htype. simpl.
  repeat rewrite <- app_assoc. simpl.
  fold (tempFilePath ext videoId). fold tmp.
  change (with_files _ _) with w1 at 1.
  destruct (getVideoAspectRatio_run ext tmp w1) as [[a' Hrun] | (e' & evs & Hrun & _)];
    rewrite Hrun; [| reflexivity].
  simpl. subst w1. unfold stagedWorld. fold tmp. simpl. rewrite lookup_insert_eq.
  clear Hrun. rename a' into a.
  fold (deriveKey a videoId).
  destruct (putObject _ _ _ _ _); simpl.
  - repeat rewrite <- app_assoc. reflexivity.
  - reflexivity.
Qed.

(** The three ways a staged upload ends: the probe throws, the store refuses
    the object, or the upload goes through. *)
Lemma staged_outcomes ext cfg req w videoId video file :
  reachesStaging ext cfg req w videoId video file ->
  let tmp := tempFilePath ext videoId in
  let run := handlerUploadVideo ext cfg req w in
  let probe := getVideoAspectRatio ext tmp (stagedWorld ext w videoId file) in
  (exists e evs,
      fst probe = inl e /\ fst run = inl e /\ (forall msg, e <> BadRequestError msg) /\
      files (snd run) = <[tmp := file_bytes file]> (files w) /\
      videos (snd run) = videos w /\ objects (snd run) = objects w /\
      log (snd run) = log w ++ stagingEvents ext videoId ++ evs /\
      (evs = [] \/ evs = [EvConsoleError]))
  \/ (exists a,
        fst probe = inr a /\
        putObject ext cfg (deriveKey a videoId) (file_bytes file) "video/mp4" = false /\
        fst run = inl StorageFailure /\
        files (snd run) = <[tmp := file_bytes file]> (files w) /\
        videos (snd run) = videos w /\ objects (snd run) = objects w /\
        log (snd run) = log w ++ stagingEvents ext videoId
                          ++ [EvUploadVideoToS3 (deriveKey a videoId) tmp "video/mp4"])
  \/ (exists a,
        let key := deriveKey a videoId in
        let video' := set_videoURL video (playbackURL (s3Bucket cfg) (s3Region cfg) key) in
        fst probe = inr a /\
        putObject ext cfg key (file_bytes file) "video/mp4" = true /\
        fst run = inr (respondWithJSON 200 (Some video')) /\
        files (snd run) = delete tmp (<[tmp := file_bytes file]> (files w)) /\
        videos (snd run) = alter (fun _ => video') (id video') (videos w) /\
        objects (snd run) = <[key := (file_bytes file, "video/mp4")]> (objects w) /\
        log (snd run) = log w ++ stagingEvents ext videoId
                          ++ [EvUploadVideoToS3 key tmp "video/mp4"; EvUpdateVideo video';
                              EvRm tmp]).
Proof.
  intros Hst tmp run probe. subst run probe.
  rewrite (handlerUploadVideo_staged ext cfg req w videoId video file Hst).
  fold tmp. unfold stagingEvents. fold tmp.
  destruct (getVideoAspectRatio_run ext tmp (stagedWorld ext w videoId file))
    as [[a Hrun] | (e & evs & Hrun & Hevs & Hbad)]; rewrite Hrun.
  - destruct (putObject ext cfg (deriveKey a videoId) (file_bytes file) "video/mp4") eqn:Hput.
    + right. right. exists a. cbv zeta. rewrite Hput.
      unfold stagedWorld. fold tmp. simpl.
      repeat (split; [reflexivity |]).
      rewrite <- !app_assoc. reflexivity.
    + right. left. exists a. rewrite Hput.
      unfold stagedWorld. fold tmp. simpl.
      repeat (split; [reflexivity |]).
      rewrite <- !app_assoc. reflexivity.
  - left. exists e, evs. unfold stagedWorld. fold tmp. simpl.
    repeat (split; [first [reflexivity | exact Hbad] |]).
    split; [| exact Hevs]. rewrite <- !app_assoc. reflexivity.
Qed.

Lemma events_since_app (w w' : World) (evs : list Event) :
  log w' = (log w ++ evs)%list -> events_since w w' = evs.
Proof. intros H. unfold events_since. rewrite H. apply drop_app_length. Qed.

Lemma handlerUploadVideo_rejected_or_staged ext cfg req w :
  (exists e evs,
      fst (handlerUploadVideo ext cfg req w) = inl e /\
      files (snd (handlerUploadVideo ext cfg req w)) = files w /\
      videos (snd (handlerUploadVideo ext cfg req w)) = videos w /\
      objects (snd (handlerUploadVideo ext cfg req w)) = objects w /\
      log (snd (handlerUploadVideo ext cfg req w)) = log w ++ evs /\
      forallb gateEvent evs = true)
  \/ (exists videoId video file, reachesStaging ext cfg req w videoId video file).
Proof.
  unfold handlerUploadVideo, reachesStaging, reachesValidation, resolvedUser.
  destruct (params_videoId req) as [videoId|] eqn:Hid.
  2:{ left. exists (BadRequestError "Invalid video ID"), []. simpl. by rewrite app_nil_r. }
  destruct (String.eqb videoId "") eqn:Hne.
  { left. exists (BadRequestError "Invalid video ID"), []. simpl. by rewrite app_nil_r. }
  apply String.eqb_neq in Hne.
  hunfold. simpl.
  destruct (getBearerToken ext (headers req)) as [token|] eqn:Htok; simpl.
  2:{ left. eexists _, [_]. simpl. done. }
  destruct (validateJWT ext token (jwtSecret cfg)) as [user|] eqn:Huser; simpl.
  2:{ left. eexists _, [_; _]. simpl. rewrite <- app_assoc. done. }
  destruct (videos w !! videoId) as [video|] eqn:Hvid; simpl.
  2:{ left. eexists _, [_; _; _]. simpl. rewrite <- !app_assoc. done. }
  destruct (String.eqb (userID video) user) eqn:Hown; simpl.
  2:{ left. eexists _, [_; _; _]. simpl. rewrite <- !app_assoc. done. }
  apply String.eqb_eq in Hown. subst user.
  destruct (body req) as [fd|] eqn:Hbody; simpl.
  2:{ left. eexists _, [_; _; _; _]. simpl. rewrite <- !app_assoc. done. }
  destruct (formData_get fd "video") as [[s|file]|] eqn:Hget; simpl.
  1,3:(left; eexists _, [_; _; _; _]; simpl; rewrite <- !app_assoc; done).
  destruct (file_size file >? shl32 1 30)%Z eqn:Hsize; simpl.
  { left; eexists _, [_; _; _; _]; simpl; rewrite <- !app_assoc; done. }
  destruct (String.eqb (file_type file) "video/mp4") eqn:Htype; simpl.
  2:{ left; eexists _, [_; _; _; _]; simpl; rewrite <- !app_assoc; done. }
  right. exists videoId, video, file.
  apply String.eqb_eq in Htype. rewrite Z.gtb_ltb in Hsize. apply Z.ltb_ge in Hsize.
  repeat split; eauto.
Qed.

Lemma string_length_app (s t : string) :
  String.length (s +:+ t) = (String.length s + String.length t)%nat.
Proof.
  induction s as [| c s IH]; [reflexivity |].
  change (String c s +:+ t) with (String c (s +:+ t)). simpl. rewrite IH. reflexivity.
Qed.

Lemma string_app_assoc (s t u : string) : (s +:+ t) +:+ u = s +:+ (t +:+ u).
Proof.
  induction s as [| c s IH]; [reflexivity |].
  change ((String c s +:+ t) +:+ u) with (String c ((s +:+ t) +:+ u)).
  rewrite IH. reflexivity.
Qed.

(** An event of one kind is not in a list of events of other kinds. *)
Ltac absent :=
  let Hin := fresh "Hin" in
  intros Hin;
  repeat (apply elem_of_cons in Hin as [Hin | Hin]; [discriminate Hin |]);
  apply elem_of_nil in Hin; exact Hin.

(** An event is in a list that shows it. *)
Ltac present :=
  first [ apply list_elem_of_here | apply list_elem_of_further; present ].

Lemma events_since_refl (w : World) : events_since w w = [].
Proof. unfold events_since. apply drop_all. Qed.

(** ** The identifier check *)

(** C9. A video-upload request whose [videoId] path parameter is absent or
    empty is refused with BadRequest ("Invalid video ID") before anything
    else happens: the world is as before, and the run logged no call at all,
    so no credential was extracted or validated. *)
Theorem missing_id_rejected_first ext cfg req w :
  params_videoId req = None \/ params_videoId req = Some "" ->
  handlerUploadVideo ext cfg req w = (inl (BadRequestError "Invalid video ID"), w)
  /\ events_since w (snd (handlerUploadVideo ext cfg req w)) = [].
Proof.
  intros H.
  assert (Hrun : handlerUploadVideo ext cfg req w
                 = (inl (BadRequestError "Invalid video ID"), w)).
  { unfold handlerUploadVideo. destruct H as [-> | ->]; reflexivity. }
  split; [exact Hrun |]. rewrite Hrun. apply events_since_refl.
Qed.

Lemma missing_id_rejected_first_witness :
  handlerUploadVideo (Sample.ext Sample.probeFailed true) Sample.cfg Sample.anonymous
    Sample.world
  = (inl (BadRequestError "Invalid video ID"), Sample.world)
  /\ events_since Sample.world
       (snd (handlerUploadVideo (Sample.ext Sample.probeFailed true) Sample.cfg
               Sample.anonymous Sample.world)) = [].
Proof.
  apply (missing_id_rejected_first (Sample.ext Sample.probeFailed true) Sample.cfg
           Sample.anonymous Sample.world).
  left. reflexivity.
Defined.

(** ** The credential, record and ownership checks *)

(** C4, as stated, fails: a request with no credential and no [videoId] is
    refused with BadRequest, not Unauthorized, because the identifier is
    checked first. *)
Lemma missing_credential_without_id :
  resolvedUser (Sample.ext Sample.probeFailed true) Sample.cfg Sample.anonymous = None
  /\ fst (handlerUploadVideo (Sample.ext Sample.probeFailed true) Sample.cfg
            Sample.anonymous Sample.world)
     = inl (BadRequestError "Invalid video ID").
Proof. split; reflexivity. Qed.

(** C4, amended. For a request that carries a non-empty [videoId], the
    checks run in this order, each before any byte of the body is read and
    before any local file is written: a missing or invalid credential fails
    with Unauthorized; otherwise an identifier that matches no record fails
    with NotFound; otherwise a record owned by someone else fails with
    Forbidden. *)
Theorem auth_checks_precede_body ext cfg req w videoId :
  params_videoId req = Some videoId -> videoId <> "" ->
  let run := handlerUploadVideo ext cfg req w in
  (resolvedUser ext cfg req = None ->
     fst run = inl UserNotAuthenticatedError /\ bodyUnread w (snd run))
  /\ (forall user,
        resolvedUser ext cfg req = Some user -> videos w !! videoId = None ->
        fst run = inl (NotFoundError "Couldn't find video") /\ bodyUnread w (snd run))
  /\ (forall user video,
        resolvedUser ext cfg req = Some user -> videos w !! videoId = Some video ->
        userID video <> user ->
        fst run = inl (UserForbiddenError "Not authorized to update this video")
        /\ bodyUnread w (snd run)).
Proof.
  intros Hid Hne run. subst run.
  unfold handlerUploadVideo, resolvedUser, bodyUnread.
  rewrite Hid, (eqb_empty_false _ Hne). hunfold. simpl.
  destruct (getBearerToken ext (headers req)) as [token|]; simpl.
  2:{ split; [| split]; [| discriminate | discriminate].
      intros _. split; [reflexivity |]. split; [reflexivity |].
      rewrite (events_since_app _ _ [EvGetBearerToken]) by reflexivity.
      split; [| intros path]; absent. }
  destruct (validateJWT ext token (jwtSecret cfg)) as [user|]; simpl.
  2:{ split; [| split]; [| discriminate | discriminate].
      intros _. split; [reflexivity |]. split; [reflexivity |].
      rewrite (events_since_app _ _ [EvGetBearerToken; EvValidateJWT])
        by (simpl; rewrite <- app_assoc; reflexivity).
      split; [| intros path]; absent. }
  split; [discriminate |].
  split.
  - intros user' [= <-] Hnone. rewrite Hnone. simpl.
    split; [reflexivity |]. split; [reflexivity |].
    rewrite (events_since_app _ _ [EvGetBearerToken; EvValidateJWT; EvGetVideo videoId])
      by (simpl; rewrite <- !app_assoc; reflexivity).
    split; [| intros path]; absent.
  - intros user' video [= <-] Hsome Hown. rewrite Hsome. simpl.
    apply String.eqb_neq in Hown. rewrite Hown. simpl.
    split; [reflexivity |]. split; [reflexivity |].
    rewrite (events_since_app _ _ [EvGetBearerToken; EvValidateJWT; EvGetVideo videoId])
      by (simpl; rewrite <- !app_assoc; reflexivity).
    split; [| intros path]; absent.
Qed.

Lemma auth_checks_precede_body_witness :
  let ext := Sample.ext Sample.probeFailed true in
  let run := fun req => handlerUploadVideo ext Sample.cfg req Sample.world in
  (fst (run (Sample.requestFor "v1" "forged")) = inl UserNotAuthenticatedError
   /\ bodyUnread Sample.world (snd (run (Sample.requestFor "v1" "forged"))))
  /\ (fst (run (Sample.requestFor "v9" "alice-token"))
      = inl (NotFoundError "Couldn't find video")
      /\ bodyUnread Sample.world (snd (run (Sample.requestFor "v9" "alice-token"))))
  /\ (fst (run (Sample.requestFor "v2" "alice-token"))
      = inl (UserForbiddenError "Not authorized to update this video")
      /\ bodyUnread Sample.world (snd (run (Sample.requestFor "v2" "alice-token")))).
Proof.
  intros ext run. subst run. cbv beta.
  split; [| split].
  - destruct (auth_checks_precede_body ext Sample.cfg (Sample.requestFor "v1" "forged")
                Sample.world "v1" eq_refl) as (H & _ & _); [discriminate |].
    apply H. reflexivity.
  - destruct (auth_checks_precede_body ext Sample.cfg
                (Sample.requestFor "v9" "alice-token") Sample.world "v9" eq_refl)
      as (_ & H & _); [discriminate |].
    apply (H "alice"); reflexivity.
  - destruct (auth_checks_precede_body ext Sample.cfg
                (Sample.requestFor "v2" "alice-token") Sample.world "v2" eq_refl)
      as (_ & _ & H); [discriminate |].
    apply (H "alice" Sample.videoOfBob); [reflexivity | reflexivity | discriminate].
Defined.

(** ** The size and type checks *)

(** A validated request that is over the cap or of another type is refused
    right after the body is read. *)
Lemma validation_rejects ext cfg req w videoId video file :
  reachesValidation ext cfg req w videoId video file ->
  (2 ^ 30 < file_size file)%Z \/ file_type file <> "video/mp4" ->
  handlerUploadVideo ext cfg req w
  = (inl (BadRequestError (if (2 ^ 30 <? file_size file)%Z
                           then "File exceeds size limit (1GB)"
                           else "Invalid file type, only MP4 is allowed")),
     with_log w (log w ++ [EvGetBearerToken; EvValidateJWT; EvGetVideo videoId;
                           EvFormData])).
Proof.
  intros (Hid & Hne & Huser & Hvid & fd & Hbody & Hget) Hbad.
  unfold resolvedUser in Huser.
  destruct (getBearerToken ext (headers req)) as [token|] eqn:Htok; [| discriminate].
  unfold handlerUploadVideo. rewrite Hid, (eqb_empty_false _ Hne).
  hunfold. simpl. rewrite Htok. simpl. rewrite Huser. simpl. rewrite Hvid.
  rewrite String.eqb_refl. simpl. rewrite Hbody. simpl. rewrite Hget.
  rewrite Z.gtb_ltb. change (shl32 1 30) with (2 ^ 30)%Z.
  destruct (2 ^ 30 <? file_size file)%Z eqn:Hsize; simpl.
  - rewrite <- !app_assoc. reflexivity.
  - destruct Hbad as [Hbig | Htype]; [apply Z.ltb_ge in Hsize; lia |].
    apply String.eqb_neq in Htype. rewrite Htype. simpl.
    rewrite <- !app_assoc. reflexivity.
Qed.

Lemma gate_events_start_nothing (w w' : World) (videoId : string) :
  files w' = files w ->
  log w' = log w ++ [EvGetBearerToken; EvValidateJWT; EvGetVideo videoId; EvFormData] ->
  nothingStarted w w'.
Proof.
  intros Hfiles Hlog. unfold nothingStarted.
  rewrite (events_since_app _ _ _ Hlog).
  split; [exact Hfiles |]. split; intros x; absent.
Qed.

(** C6. For a request that passes the earlier checks and carries a [video]
    file: a file of exactly 2^30 bytes is not refused for its size (and, when
    its type is video/mp4, is staged); a file of 2^30 + 1 bytes is refused
    with BadRequest; a file within the cap whose declared type is not exactly
    video/mp4 is refused with BadRequest; and both refusals come before any
    local file is written or subprocess started. *)
Theorem size_and_type_gate ext cfg req w videoId video file :
  reachesValidation ext cfg req w videoId video file ->
  let run := handlerUploadVideo ext cfg req w in
  (file_size file = 2 ^ 30 ->
     fst run <> inl (BadRequestError "File exceeds size limit (1GB)")
     /\ (file_type file = "video/mp4" ->
         EvWrite (tempFilePath ext videoId) ∈ events_since w (snd run)))
  /\ (file_size file = 2 ^ 30 + 1 ->
      fst run = inl (BadRequestError "File exceeds size limit (1GB)")
      /\ nothingStarted w (snd run))
  /\ ((file_size file <= 2 ^ 30)%Z -> file_type file <> "video/mp4" ->
      fst run = inl (BadRequestError "Invalid file type, only MP4 is allowed")
      /\ nothingStarted w (snd run)).
Proof.
  intros Hval run. subst run. split; [| split].
  - intros Hsize.
    destruct (String.eqb (file_type file) "video/mp4") eqn:Htype.
    + apply String.eqb_eq in Htype.
      assert (Hst : reachesStaging ext cfg req w videoId video file)
        by (split; [exact Hval | split; [lia | exact Htype]]).
      assert (Hin : forall evs,
                 EvWrite (tempFilePath ext videoId)
                 ∈ stagingEvents ext videoId ++ evs).
      { intros evs. apply elem_of_app. left. unfold stagingEvents.
        present. }
      destruct (staged_outcomes ext cfg req w videoId video file Hst)
        as [(e & evs & _ & Hr & Hbad & _ & _ & _ & Hlog & _)
           | [(a & _ & _ & Hr & _ & _ & _ & Hlog)
             | (a & _ & _ & Hr & _ & _ & _ & Hlog)]];
        rewrite Hr; (split; [| intros _; rewrite (events_since_app _ _ _ Hlog); apply Hin]).
      * intros [= ->]. exact (Hbad _ eq_refl).
      * discriminate.
      * discriminate.
    + apply String.eqb_neq in Htype.
      rewrite (validation_rejects ext cfg req w videoId video file Hval (or_intror Htype)).
      replace (2 ^ 30 <? file_size file)%Z with false by (symmetry; apply Z.ltb_ge; lia).
      simpl. split; [discriminate | intros H; contradiction].
  - intros Hsize.
    rewrite (validation_rejects ext cfg req w videoId video file Hval)
      by (left; lia).
    replace (2 ^ 30 <? file_size file)%Z with true by (symmetry; apply Z.ltb_lt; lia).
    simpl. split; [reflexivity |].
    apply (gate_events_start_nothing _ _ videoId); reflexivity.
  - intros Hsize Htype.
    rewrite (validation_rejects ext cfg req w videoId video file Hval (or_intror Htype)).
    replace (2 ^ 30 <? file_size file)%Z with false by (symmetry; apply Z.ltb_ge; lia).
    simpl. split; [reflexivity |].
    apply (gate_events_start_nothing _ _ videoId); reflexivity.
Qed.

Lemma sample_reachesValidation (probe : Proc) (store : bool) (file : File) :
  reachesValidation (Sample.ext probe store) Sample.cfg (Sample.upload "video" file)
    Sample.world "v1" Sample.video file.
Proof.
  unfold reachesValidation.
  split; [reflexivity |]. split; [discriminate |].
  split; [reflexivity |]. split; [reflexivity |].
  eexists. split; reflexivity.
Qed.

Lemma sample_reachesStaging (probe : Proc) (store : bool) :
  reachesStaging (Sample.ext probe store) Sample.cfg
    (Sample.upload "video" (Sample.fileOf 1000 "video/mp4")) Sample.world
    "v1" Sample.video (Sample.fileOf 1000 "video/mp4").
Proof.
  split; [apply sample_reachesValidation |]. split; [simpl; lia | reflexivity].
Qed.

Lemma size_and_type_gate_witness :
  let ext := Sample.ext (Sample.probed (JNum 1920) (JNum 1080)) true in
  let run := fun file =>
    handlerUploadVideo ext Sample.cfg (Sample.upload "video" file) Sample.world in
  (fst (run (Sample.fileOf (2 ^ 30) "video/mp4"))
   <> inl (BadRequestError "File exceeds size limit (1GB)")
   /\ EvWrite (tempFilePath ext "v1")
        ∈ events_since Sample.world (snd (run (Sample.fileOf (2 ^ 30) "video/mp4"))))
  /\ (fst (run (Sample.fileOf (2 ^ 30 + 1) "video/mp4"))
      = inl (BadRequestError "File exceeds size limit (1GB)")
      /\ nothingStarted Sample.world (snd (run (Sample.fileOf (2 ^ 30 + 1) "video/mp4"))))
  /\ (fst (run (Sample.fileOf 1000 "video/quicktime"))
      = inl (BadRequestError "Invalid file type, only MP4 is allowed")
      /\ nothingStarted Sample.world (snd (run (Sample.fileOf 1000 "video/quicktime")))).
Proof.
  intros ext run. subst run. cbv beta.
  split; [| split].
  - destruct (size_and_type_gate ext Sample.cfg
                (Sample.upload "video" (Sample.fileOf (2 ^ 30) "video/mp4")) Sample.world
                "v1" Sample.video _ (sample_reachesValidation _ _ _)) as (H & _ & _).
    destruct (H eq_refl) as [H1 H2]. split; [exact H1 | exact (H2 eq_refl)].
  - destruct (size_and_type_gate ext Sample.cfg
                (Sample.upload "video" (Sample.fileOf (2 ^ 30 + 1) "video/mp4")) Sample.world
                "v1" Sample.video _ (sample_reachesValidation _ _ _)) as (_ & H & _).
    exact (H eq_refl).
  - destruct (size_and_type_gate ext Sample.cfg
                (Sample.upload "video" (Sample.fileOf 1000 "video/quicktime")) Sample.world
                "v1" Sample.video _ (sample_reachesValidation _ _ _)) as (_ & _ & H).
    apply H; [simpl; lia | discriminate].
Defined.

(** ** The probe *)

Lemma Falsy_ToBoolean (v : JSValue) : Falsy v -> ToBoolean v = false.
Proof.
  intros [ | | f H | f H | | ]; simpl; try reflexivity; rewrite H; simpl;
    [reflexivity | apply negb_false_iff, orb_true_r].
Qed.

Lemma ToBoolean_Falsy (v : JSValue) : ToBoolean v = false -> Falsy v.
Proof.
  destruct v as [[ | [|] | f | s | items | props] |]; simpl; intros H;
    try discriminate H.
  - apply falsy_null.
  - apply falsy_false.
  - apply negb_false_iff, orb_true_iff in H as [H | H];
      [apply falsy_zero | apply falsy_nan]; exact H.
  - apply negb_false_iff, String.eqb_eq in H. subst s. apply falsy_empty.
  - apply falsy_missing.
Qed.

(** Reading [json.streams] throws on [null] only. *)
Lemma member_streams (json : JSON) :
  member json "streams"
  = match json with JNull => inl TypeError | _ => inr (getProp json "streams") end.
Proof. destruct json; reflexivity. Qed.

(** What [getVideoAspectRatio] does once ffprobe has exited with code 0 and
    printed [json]. *)
Lemma getVideoAspectRatio_parsed ext path w json :
  exited (ffprobe ext (ffprobe_argv path) (files w)) = 0%Z ->
  stdout (ffprobe ext (ffprobe_argv path) (files w)) = Some json ->
  fst (getVideoAspectRatio ext path w)
  = match json with
    | JNull => inl TypeError
    | _ =>
        let width := firstStreamField json "width" in
        let height := firstStreamField json "height" in
        if negb (ToBoolean width) || negb (ToBoolean height)
        then inl (JsError "Width or height not found in ffprobe output")
        else
          match ToNumber (StringToNumber ext) (NumberToString ext) width with
          | inl e => inl e
          | inr x =>
              match ToNumber (StringToNumber ext) (NumberToString ext) height with
              | inl e => inl e
              | inr y => inr (classifyRatio 0.05 (x / y))
              end
          end
    end.
Proof.
  intros Hexit Hout.
  unfold getVideoAspectRatio, spawn_ffprobe, console_error, firstStreamField.
  munfold. simpl. rewrite Hexit, Hout. simpl. rewrite member_streams.
  destruct json; simpl; try reflexivity;
    destruct (negb _ || negb _); simpl; try reflexivity;
    destruct (ToNumber _ _ _); simpl; try reflexivity;
    destruct (ToNumber _ _ _); reflexivity.
Qed.

(** C3, as stated, fails: a width that is not a number but is truthy passes
    the check.  The string N/A divides to NaN and the boolean [true] to 1,
    and both runs return the classification other. *)
Lemma non_numeric_width_classified :
  fst (getVideoAspectRatio (Sample.ext (Sample.probed (JStr "N/A") (JNum 1080)) true)
         "/tmp/v1.mp4" Sample.world) = inr other
  /\ fst (getVideoAspectRatio (Sample.ext (Sample.probed (JBool true) (JNum 1080)) true)
            "/tmp/v1.mp4" Sample.world) = inr other.
Proof. split; vm_compute; reflexivity. Qed.

(** C3, amended. When the width or the height of the first stream in the
    probe's output is zero, missing, [null], NaN, the empty string or
    [false], [getVideoAspectRatio] throws and returns no classification,
    whatever the exit code; with exit code 0 the error is a TypeError when
    the whole output is [null] and "Width or height not found in ffprobe
    output" otherwise. *)
Theorem falsy_dimension_rejected ext path w json :
  stdout (ffprobe ext (ffprobe_argv path) (files w)) = Some json ->
  Falsy (firstStreamField json "width") \/ Falsy (firstStreamField json "height") ->
  exists e,
    fst (getVideoAspectRatio ext path w) = inl e
    /\ (exited (ffprobe ext (ffprobe_argv path) (files w)) = 0%Z ->
        e = match json with
            | JNull => TypeError
            | _ => JsError "Width or height not found in ffprobe output"
            end).
Proof.
  intros Hout Hfalsy.
  destruct (Z.eq_dec (exited (ffprobe ext (ffprobe_argv path) (files w))) 0)
    as [Hexit | Hexit].
  - eexists. split; [| intros _; reflexivity].
    rewrite (getVideoAspectRatio_parsed ext path w json Hexit Hout).
    assert (Hchk : negb (ToBoolean (firstStreamField json "width"))
                   || negb (ToBoolean (firstStreamField json "height")) = true).
    { apply orb_true_iff.
      destruct Hfalsy as [H | H]; [left | right];
        apply negb_true_iff, Falsy_ToBoolean, H. }
    destruct json; cbv zeta; try rewrite Hchk; reflexivity.
  - eexists. split; [| intros H; contradiction].
    unfold getVideoAspectRatio, spawn_ffprobe. munfold. simpl.
    apply Z.eqb_neq in Hexit. rewrite Hexit. reflexivity.
Qed.

Lemma falsy_dimension_rejected_witness :
  exists e,
    fst (getVideoAspectRatio (Sample.ext (Sample.probed (JNum 0) (JNum 1080)) true)
           "/tmp/v1.mp4" Sample.world) = inl e
    /\ (exited (ffprobe (Sample.ext (Sample.probed (JNum 0) (JNum 1080)) true)
                  (ffprobe_argv "/tmp/v1.mp4") (files Sample.world)) = 0%Z ->
        e = JsError "Width or height not found in ffprobe output").
Proof.
  apply (falsy_dimension_rejected
           (Sample.ext (Sample.probed (JNum 0) (JNum 1080)) true)
           "/tmp/v1.mp4" Sample.world
           (JObj [("programs", JArr []);
                  ("streams", JArr [JObj [("width", JNum 0); ("height", JNum 1080)]])])).
  - reflexivity.
  - left. apply falsy_zero. reflexivity.
Defined.

(** C7, as stated, fails when the comparison is read in exact arithmetic:
    311/180 lies exactly 0.05 below 16/9, so it is not within the
    tolerance and the claim gives other, but the binary64 quotient
    1.7277777777777779 and the binary64 16/9 = 1.7777777777777777 differ by
    0.04999999999999982, which is below the binary64 0.05, and the code
    returns landscape. *)
Lemma boundary_ratio_is_landscape :
  fst (getVideoAspectRatio (Sample.ext (Sample.probed (JNum 311) (JNum 180)) true)
         "/tmp/v1.mp4" Sample.world) = inr landscape
  /\ (Qabs (inject_Z 311 / inject_Z 180 - (16 # 9)) == 1 # 20)%Q
  /\ classifyExact 311 180 = other.
Proof. split; [| split]; vm_compute; reflexivity. Qed.

(** On the three sizes the spec names, the exact reading and the code agree. *)
Example exact_reading_of_named_sizes :
  classifyExact 1920 1080 = landscape
  /\ classifyExact 1080 1920 = portrait
  /\ classifyExact 1000 1000 = other.
Proof. repeat split; vm_compute; reflexivity. Qed.

(** C7, amended. For a positive width and height read from the first
    stream (positive integers in particular), the classification is
    landscape when |width / height - 16/9| < 0.05, portrait when
    |width / height - 9/16| < 0.05, and other otherwise, where the
    quotients, the differences and 0.05 are IEEE-754 binary64 values and
    operations.  The witness runs 1920x1080, 1080x1920 and 1000x1000. *)
Theorem classification_by_ratio ext path w json (width height : float) :
  exited (ffprobe ext (ffprobe_argv path) (files w)) = 0%Z ->
  stdout (ffprobe ext (ffprobe_argv path) (files w)) = Some json ->
  firstStreamField json "width" = Some (JNum width) ->
  firstStreamField json "height" = Some (JNum height) ->
  (0 <? width)%float = true -> (0 <? height)%float = true ->
  fst (getVideoAspectRatio ext path w)
  = inr (if (abs (width / height - 16 / 9) <? 0.05)%float then landscape
         else if (abs (width / height - 9 / 16) <? 0.05)%float then portrait
         else other).
Proof.
  intros Hexit Hout Hw Hh Hwpos Hhpos.
  rewrite (getVideoAspectRatio_parsed ext path w json Hexit Hout).
  destruct json; try discriminate Hw; cbv zeta;
    rewrite Hw, Hh, (positive_truthy _ Hwpos), (positive_truthy _ Hhpos);
    reflexivity.
Qed.

Lemma classification_by_ratio_witness :
  let run := fun width height =>
    fst (getVideoAspectRatio (Sample.ext (Sample.probed (JNum width) (JNum height)) true)
           "/tmp/v1.mp4" Sample.world) in
  run 1920%float 1080%float = inr landscape
  /\ run 1080%float 1920%float = inr portrait
  /\ run 1000%float 1000%float = inr other.
Proof.
  intros run. subst run. cbv beta.
  split; [| split].
  - exact (classification_by_ratio
             (Sample.ext (Sample.probed (JNum 1920) (JNum 1080)) true)
             "/tmp/v1.mp4" Sample.world _ 1920%float 1080%float
             eq_refl eq_refl eq_refl eq_refl eq_refl eq_refl).
  - exact (classification_by_ratio
             (Sample.ext (Sample.probed (JNum 1080) (JNum 1920)) true)
             "/tmp/v1.mp4" Sample.world _ 1080%float 1920%float
             eq_refl eq_refl eq_refl eq_refl eq_refl eq_refl).
  - exact (classification_by_ratio
             (Sample.ext (Sample.probed (JNum 1000) (JNum 1000)) true)
             "/tmp/v1.mp4" Sample.world _ 1000%float 1000%float
             eq_refl eq_refl eq_refl eq_refl eq_refl eq_refl).
Defined.

(** ** Whole runs of the video handler *)

(** A run that returns a response went through staging, probe, upload,
    record update and removal, in this order. *)
Lemma successful_upload ext cfg req w resp :
  fst (handlerUploadVideo ext cfg req w) = inr resp ->
  exists videoId video file a,
    reachesStaging ext cfg req w videoId video file /\
    let run := handlerUploadVideo ext cfg req w in
    let tmp := tempFilePath ext videoId in
    let key := deriveKey a videoId in
    let video' := set_videoURL video (playbackURL (s3Bucket cfg) (s3Region cfg) key) in
    fst (getVideoAspectRatio ext tmp (stagedWorld ext w videoId file)) = inr a /\
    putObject ext cfg key (file_bytes file) "video/mp4" = true /\
    resp = respondWithJSON 200 (Some video') /\
    files (snd run) = delete tmp (<[tmp := file_bytes file]> (files w)) /\
    videos (snd run) = alter (fun _ => video') (id video') (videos w) /\
    objects (snd run) = <[key := (file_bytes file, "video/mp4")]> (objects w) /\
    log (snd run) = log w ++ stagingEvents ext videoId
                      ++ [EvUploadVideoToS3 key tmp "video/mp4"; EvUpdateVideo video';
                          EvRm tmp].
Proof.
  intros Hok.
  destruct (handlerUploadVideo_rejected_or_staged ext cfg req w)
    as [(e & evs & Hr & _) | (videoId & video & file & Hst)];
    [rewrite Hr in Hok; discriminate |].
  exists videoId, video, file.
  destruct (staged_outcomes ext cfg req w videoId video file Hst)
    as [(e & evs & _ & Hr & _) | [(a & _ & _ & Hr & _) | (a & Hp & Hput & Hr & Hrest)]];
    try (rewrite Hr in Hok; discriminate).
  exists a. split; [exact Hst |]. cbv zeta.
  split; [exact Hp |]. split; [exact Hput |].
  split; [rewrite Hr in Hok; injection Hok as <-; reflexivity | exact Hrest].
Qed.

(** A run that throws was refused before staging, or threw in the probe or
    in the upload; either way the table of videos and the bucket are as
    before. *)
Lemma failed_upload ext cfg req w e :
  fst (handlerUploadVideo ext cfg req w) = inl e ->
  let run := handlerUploadVideo ext cfg req w in
  videos (snd run) = videos w /\ objects (snd run) = objects w /\
  ((exists evs, files (snd run) = files w /\ log (snd run) = log w ++ evs /\
                forallb gateEvent evs = true)
   \/ (exists videoId video file evs,
         reachesStaging ext cfg req w videoId video file /\
         files (snd run) = <[tempFilePath ext videoId := file_bytes file]> (files w) /\
         log (snd run) = log w ++ stagingEvents ext videoId ++ evs /\
         forallb afterProbe evs = true)).
Proof.
  intros Hfail run. subst run.
  destruct (handlerUploadVideo_rejected_or_staged ext cfg req w)
    as [(e' & evs & _ & Hf & Hv & Ho & Hlog & Hgate) | (videoId & video & file & Hst)].
  { split; [exact Hv |]. split; [exact Ho |]. left. exists evs. auto. }
  destruct (staged_outcomes ext cfg req w videoId video file Hst)
    as [(e' & evs & _ & _ & _ & Hf & Hv & Ho & Hlog & Hevs)
       | [(a & _ & _ & _ & Hf & Hv & Ho & Hlog)
         | (a & _ & _ & Hr & _)]].
  - split; [exact Hv |]. split; [exact Ho |]. right.
    exists videoId, video, file, evs.
    repeat (split; [assumption |]). destruct Hevs as [-> | ->]; reflexivity.
  - split; [exact Hv |]. split; [exact Ho |]. right.
    exists videoId, video, file. eexists.
    repeat (split; [eassumption |]). reflexivity.
  - rewrite Hr in Hfail. discriminate.
Qed.

Lemma forallb_absent (p : Event -> bool) (evs : list Event) (ev : Event) :
  forallb p evs = true -> p ev = false -> ev ∉ evs.
Proof.
  intros Hall Hp Hin. apply list_elem_of_In in Hin.
  rewrite forallb_forall in Hall. rewrite (Hall _ Hin) in Hp. discriminate.
Qed.

(** ** The record *)

(** In no run does the handler start a process other than ffprobe on the
    staged file: no remux runs, so none can fail. *)
Lemma only_ffprobe_spawned ext cfg req w argv :
  EvSpawn argv ∈ events_since w (snd (handlerUploadVideo ext cfg req w)) ->
  exists videoId, params_videoId req = Some videoId
                  /\ argv = ffprobe_argv (tempFilePath ext videoId).
Proof.
  assert (Hstaging : forall videoId,
             EvSpawn argv ∈ stagingEvents ext videoId ->
             argv = ffprobe_argv (tempFilePath ext videoId)).
  { intros videoId Hin. unfold stagingEvents in Hin.
    do 5 (apply elem_of_cons in Hin as [Hin | Hin]; [discriminate Hin |]).
    apply elem_of_cons in Hin as [Hin | Hin]; [congruence |].
    apply elem_of_nil in Hin. contradiction. }
  destruct (fst (handlerUploadVideo ext cfg req w)) as [e | resp] eqn:Hr.
  - destruct (failed_upload ext cfg req w e Hr)
      as (_ & _ & [(evs & _ & Hlog & Hall)
                  | (videoId & video & file & evs & Hst & _ & Hlog & Hall)]);
      rewrite (events_since_app _ _ _ Hlog); intros Hin.
    + exfalso. revert Hin. apply (forallb_absent gateEvent); [exact Hall | reflexivity].
    + exists videoId. split; [exact (proj1 (proj1 Hst)) |].
      apply elem_of_app in Hin as [Hin | Hin]; [exact (Hstaging _ Hin) |].
      exfalso. revert Hin. apply (forallb_absent afterProbe); [exact Hall | reflexivity].
  - destruct (successful_upload ext cfg req w resp Hr)
      as (videoId & video & file & a & Hst & _ & _ & _ & _ & _ & _ & Hlog).
    rewrite (events_since_app _ _ _ Hlog). intros Hin.
    exists videoId. split; [exact (proj1 (proj1 Hst)) |].
    apply elem_of_app in Hin as [Hin | Hin]; [exact (Hstaging _ Hin) |].
    exfalso. revert Hin. absent.
Qed.

(** C5. When the probe throws, or the storage upload fails, the handler
    throws; and whenever the handler throws, the table of videos is what it
    was before the request and no record update was issued.  (The handler
    starts no remux that could fail: see [only_ffprobe_spawned].)  In any
    run, a record update comes right after an upload to storage that the
    store accepted. *)
Theorem record_updated_only_after_upload ext cfg req w :
  let run := handlerUploadVideo ext cfg req w in
  (forall videoId video file,
      reachesStaging ext cfg req w videoId video file ->
      let probe := fst (getVideoAspectRatio ext (tempFilePath ext videoId)
                          (stagedWorld ext w videoId file)) in
      (forall e, probe = inl e -> fst run = inl e)
      /\ (forall a, probe = inr a ->
            putObject ext cfg (deriveKey a videoId) (file_bytes file) "video/mp4" = false ->
            fst run = inl StorageFailure))
  /\ (forall e, fst run = inl e ->
        videos (snd run) = videos w
        /\ forall v, EvUpdateVideo v ∉ events_since w (snd run))
  /\ (forall v, EvUpdateVideo v ∈ events_since w (snd run) ->
      exists key path data before after,
        events_since w (snd run)
        = before ++ [EvUploadVideoToS3 key path "video/mp4"; EvUpdateVideo v] ++ after
        /\ putObject ext cfg key data "video/mp4" = true
        /\ objects (snd run) !! key = Some (data, "video/mp4")).
Proof.
  intros run. subst run.
  assert (Hfail : forall e, fst (handlerUploadVideo ext cfg req w) = inl e ->
            videos (snd (handlerUploadVideo ext cfg req w)) = videos w
            /\ forall v, EvUpdateVideo v
                         ∉ events_since w (snd (handlerUploadVideo ext cfg req w))).
  { intros e He.
    destruct (failed_upload ext cfg req w e He)
      as (Hv & _ & [(evs & _ & Hlog & Hall)
                   | (videoId & video & file & evs & _ & _ & Hlog & Hall)]);
      (split; [exact Hv |]); intros v; rewrite (events_since_app _ _ _ Hlog).
    - apply (forallb_absent gateEvent); [exact Hall | reflexivity].
    - intros Hin. apply elem_of_app in Hin as [Hin | Hin].
      + revert Hin. unfold stagingEvents. absent.
      + revert Hin. apply (forallb_absent afterProbe); [exact Hall | reflexivity]. }
  split; [| split; [exact Hfail |]].
  - intros videoId video file Hst probe. subst probe.
    destruct (staged_outcomes ext cfg req w videoId video file Hst)
      as [(e' & evs & Hp & Hr & _)
         | [(a' & Hp & Hput & Hr & _) | (a' & Hp & Hput & Hr & _)]];
      rewrite Hp, Hr; split.
    + intros e [= ->]. reflexivity.
    + intros a Ha. discriminate Ha.
    + intros e He. discriminate He.
    + reflexivity.
    + intros e He. discriminate He.
    + intros a [= <-] Hno. rewrite Hno in Hput. discriminate Hput.
  - intros v Hin.
    destruct (fst (handlerUploadVideo ext cfg req w)) as [e | resp] eqn:Hr.
    { exfalso. exact (proj2 (Hfail e eq_refl) v Hin). }
    destruct (successful_upload ext cfg req w resp Hr)
      as (videoId & video & file & a & _ & _ & Hput & _ & _ & _ & Hobj & Hlog).
    rewrite (events_since_app _ _ _ Hlog) in Hin |- *.
    assert (Hv : v = set_videoURL video
                       (playbackURL (s3Bucket cfg) (s3Region cfg) (deriveKey a videoId))).
    { apply elem_of_app in Hin as [Hin | Hin].
      - exfalso. revert Hin. unfold stagingEvents. absent.
      - apply elem_of_cons in Hin as [Hin | Hin]; [discriminate Hin |].
        apply elem_of_cons in Hin as [Hin | Hin]; [congruence |].
        apply elem_of_cons in Hin as [Hin | Hin]; [discriminate Hin |].
        apply elem_of_nil in Hin. contradiction. }
    subst v.
    exists (deriveKey a videoId), (tempFilePath ext videoId), (file_bytes file),
      (stagingEvents ext videoId), [EvRm (tempFilePath ext videoId)].
    split; [reflexivity |]. split; [exact Hput |].
    rewrite Hobj. apply lookup_insert_eq.
Qed.

Lemma record_updated_only_after_upload_witness :
  let refused :=
    handlerUploadVideo (Sample.ext (Sample.probed (JNum 1920) (JNum 1080)) false)
      Sample.cfg (Sample.upload "video" (Sample.fileOf 1000 "video/mp4")) Sample.world in
  let unprobed :=
    handlerUploadVideo (Sample.ext Sample.probeFailed true)
      Sample.cfg (Sample.upload "video" (Sample.fileOf 1000 "video/mp4")) Sample.world in
  (fst refused = inl StorageFailure
   /\ videos (snd refused) = videos Sample.world
   /\ forall v, EvUpdateVideo v ∉ events_since Sample.world (snd refused))
  /\ (videos (snd unprobed) = videos Sample.world
      /\ forall v, EvUpdateVideo v ∉ events_since Sample.world (snd unprobed)).
Proof.
  intros refused unprobed. split.
  - split; [reflexivity |].
    exact (proj1 (proj2 (record_updated_only_after_upload
                    (Sample.ext (Sample.probed (JNum 1920) (JNum 1080)) false)
                    Sample.cfg (Sample.upload "video" (Sample.fileOf 1000 "video/mp4"))
                    Sample.world)) StorageFailure eq_refl).
  - exact (proj1 (proj2 (record_updated_only_after_upload
                    (Sample.ext Sample.probeFailed true)
                    Sample.cfg (Sample.upload "video" (Sample.fileOf 1000 "video/mp4"))
                    Sample.world))
             (JsError "ffprobe failed with exit code 1: Invalid data found when processing input")
             eq_refl).
Defined.

(** ** What is uploaded, and under which key *)

(** The uploads and record updates a staged run logs. *)
Lemma staged_uploads_and_updates ext cfg req w videoId video file a :
  reachesStaging ext cfg req w videoId video file ->
  fst (getVideoAspectRatio ext (tempFilePath ext videoId)
         (stagedWorld ext w videoId file)) = inr a ->
  let run := handlerUploadVideo ext cfg req w in
  let key := deriveKey a videoId in
  let url := playbackURL (s3Bucket cfg) (s3Region cfg) key in
  (forall k path ct,
      EvUploadVideoToS3 k path ct ∈ events_since w (snd run) <->
      k = key /\ path = tempFilePath ext videoId /\ ct = "video/mp4")
  /\ (forall v, EvUpdateVideo v ∈ events_since w (snd run) -> v = set_videoURL video url)
  /\ (forall resp, fst run = inr resp ->
        resp = respondWithJSON 200 (Some (set_videoURL video url))
        /\ EvUpdateVideo (set_videoURL video url) ∈ events_since w (snd run))
  /\ (putObject ext cfg key (file_bytes file) "video/mp4" = true ->
      fst run = inr (respondWithJSON 200 (Some (set_videoURL video url)))).
Proof.
  intros Hst Hp run key url. subst run key url.
  destruct (staged_outcomes ext cfg req w videoId video file Hst)
    as [(e' & evs & Hp' & _)
       | [(a' & Hp' & Hput & Hr & _ & _ & _ & Hlog)
         | (a' & Hp' & Hput & Hr & _ & _ & _ & Hlog)]];
    cbv zeta in Hp'; rewrite Hp in Hp'; try discriminate Hp'; injection Hp' as <-;
    rewrite (events_since_app _ _ _ Hlog), Hr.
  - split; [| split; [| split]].
    + intros k path ct. split.
      * intros Hin. apply elem_of_app in Hin as [Hin | Hin].
        -- exfalso. revert Hin. unfold stagingEvents. absent.
        -- apply elem_of_cons in Hin as [Hin | Hin];
             [injection Hin as -> -> ->; auto |].
           exfalso. revert Hin. absent.
      * intros (-> & -> & ->). apply elem_of_app. right. present.
    + intros v Hin. exfalso. apply elem_of_app in Hin as [Hin | Hin].
      * revert Hin. unfold stagingEvents. absent.
      * revert Hin. absent.
    + intros resp Hresp. discriminate Hresp.
    + intros Hyes. rewrite Hyes in Hput. discriminate Hput.
  - split; [| split; [| split]].
    + intros k path ct. split.
      * intros Hin. apply elem_of_app in Hin as [Hin | Hin].
        -- exfalso. revert Hin. unfold stagingEvents. absent.
        -- apply elem_of_cons in Hin as [Hin | Hin];
             [injection Hin as -> -> ->; auto |].
           exfalso. revert Hin. absent.
      * intros (-> & -> & ->). apply elem_of_app. right. present.
    + intros v Hin. apply elem_of_app in Hin as [Hin | Hin].
      * exfalso. revert Hin. unfold stagingEvents. absent.
      * apply elem_of_cons in Hin as [Hin | Hin]; [discriminate Hin |].
        apply elem_of_cons in Hin as [Hin | Hin]; [injection Hin as ->; reflexivity |].
        exfalso. revert Hin. absent.
    + intros resp [= <-]. split; [reflexivity |]. apply elem_of_app. right. present.
    + intros _. reflexivity.
Qed.

(** C8. Whenever a staged upload has been classified, the key handed to the
    uploader is the classification, a slash, the identifier and ".mp4":
    "landscape/{identifier}.mp4", "portrait/{identifier}.mp4" or
    "other/{identifier}.mp4"; and the playback URL of every record issued
    for update, and of the record returned, is
    "https://{bucket}.s3.{region}.amazonaws.com/{key}".  The derivation reads
    nothing else: any other classified upload for the same identifier and
    classification, in any world, uses the same key and the same URL. *)
Theorem key_and_url_derivation ext cfg req w videoId video file classification :
  reachesStaging ext cfg req w videoId video file ->
  fst (getVideoAspectRatio ext (tempFilePath ext videoId)
         (stagedWorld ext w videoId file)) = inr classification ->
  let run := handlerUploadVideo ext cfg req w in
  let key := match classification with
             | landscape => "landscape/" +:+ videoId +:+ ".mp4"
             | portrait => "portrait/" +:+ videoId +:+ ".mp4"
             | other => "other/" +:+ videoId +:+ ".mp4"
             end in
  let url := "https://" +:+ s3Bucket cfg +:+ ".s3." +:+ s3Region cfg
             +:+ ".amazonaws.com/" +:+ key in
  (forall k path ct,
      EvUploadVideoToS3 k path ct ∈ events_since w (snd run) <->
      k = key /\ path = tempFilePath ext videoId /\ ct = "video/mp4")
  /\ (forall v, EvUpdateVideo v ∈ events_since w (snd run) -> videoURL v = Some url)
  /\ (forall resp, fst run = inr resp ->
        exists v, payload resp = Some v /\ videoURL v = Some url
                  /\ EvUpdateVideo v ∈ events_since w (snd run))
  /\ (putObject ext cfg key (file_bytes file) "video/mp4" = true ->
      exists resp, fst run = inr resp)
  /\ (forall ext2 req2 w2 video2 file2,
        reachesStaging ext2 cfg req2 w2 videoId video2 file2 ->
        fst (getVideoAspectRatio ext2 (tempFilePath ext2 videoId)
               (stagedWorld ext2 w2 videoId file2)) = inr classification ->
        let run2 := handlerUploadVideo ext2 cfg req2 w2 in
        (forall k path ct,
            EvUploadVideoToS3 k path ct ∈ events_since w2 (snd run2) -> k = key)
        /\ (forall v, EvUpdateVideo v ∈ events_since w2 (snd run2) ->
                      videoURL v = Some url)).
Proof.
  intros Hst Hp run key url.
  assert (Hkey : key = deriveKey classification videoId)
    by (subst key; destruct classification; reflexivity).
  subst run url. clearbody key. subst key.
  fold (playbackURL (s3Bucket cfg) (s3Region cfg) (deriveKey classification videoId)).
  destruct (staged_uploads_and_updates ext cfg req w videoId video file classification
              Hst Hp) as (Hup & Hrec & Hresp & Hyes).
  split; [exact Hup |]. split; [| split; [| split]].
  - intros v Hin. rewrite (Hrec v Hin). reflexivity.
  - intros resp Hok. destruct (Hresp resp Hok) as [-> Hin].
    eexists. split; [reflexivity |]. split; [reflexivity | exact Hin].
  - intros Hput. eexists. exact (Hyes Hput).
  - intros ext2 req2 w2 video2 file2 Hst2 Hp2 run2. subst run2.
    destruct (staged_uploads_and_updates ext2 cfg req2 w2 videoId video2 file2
                classification Hst2 Hp2) as (Hup2 & Hrec2 & _).
    split.
    + intros k path ct Hin. exact (proj1 (proj1 (Hup2 k path ct) Hin)).
    + intros v Hin. rewrite (Hrec2 v Hin). reflexivity.
Qed.

Lemma key_and_url_derivation_witness :
  let ext := fun width height =>
    Sample.ext (Sample.probed (JNum width) (JNum height)) true in
  let req := Sample.upload "video" (Sample.fileOf 1000 "video/mp4") in
  let run := fun width height =>
    handlerUploadVideo (ext width height) Sample.cfg req Sample.world in
  let keyed := fun width height key =>
    (forall k path ct,
        EvUploadVideoToS3 k path ct
        ∈ events_since Sample.world (snd (run width height)) <->
        k = key /\ path = "/tmp/v1.mp4" /\ ct = "video/mp4")
    /\ (forall v, EvUpdateVideo v ∈ events_since Sample.world (snd (run width height)) ->
                  videoURL v = Some ("https://tubely.s3.us-east-1.amazonaws.com/" +:+ key))
    /\ (forall resp, fst (run width height) = inr resp ->
          exists v, payload resp = Some v
                    /\ videoURL v
                       = Some ("https://tubely.s3.us-east-1.amazonaws.com/" +:+ key)
                    /\ EvUpdateVideo v
                       ∈ events_since Sample.world (snd (run width height)))
    /\ exists resp, fst (run width height) = inr resp in
  keyed 1920%float 1080%float "landscape/v1.mp4"
  /\ keyed 1080%float 1920%float "portrait/v1.mp4"
  /\ keyed 1000%float 1000%float "other/v1.mp4".
Proof.
  intros ext req run keyed.
  split; [| split].
  - destruct (key_and_url_derivation (ext 1920%float 1080%float) Sample.cfg req
                Sample.world "v1" Sample.video (Sample.fileOf 1000 "video/mp4")
                landscape (sample_reachesStaging _ _) eq_refl)
      as (Hup & Hrec & Hresp & Hyes & _).
    split; [exact Hup |]. split; [exact Hrec |]. split; [exact Hresp |].
    exact (Hyes eq_refl).
  - destruct (key_and_url_derivation (ext 1080%float 1920%float) Sample.cfg req
                Sample.world "v1" Sample.video (Sample.fileOf 1000 "video/mp4")
                portrait (sample_reachesStaging _ _) eq_refl)
      as (Hup & Hrec & Hresp & Hyes & _).
    split; [exact Hup |]. split; [exact Hrec |]. split; [exact Hresp |].
    exact (Hyes eq_refl).
  - destruct (key_and_url_derivation (ext 1000%float 1000%float) Sample.cfg req
                Sample.world "v1" Sample.video (Sample.fileOf 1000 "video/mp4")
                other (sample_reachesStaging _ _) eq_refl)
      as (Hup & Hrec & Hresp & Hyes & _).
    split; [exact Hup |]. split; [exact Hrec |]. split; [exact Hresp |].
    exact (Hyes eq_refl).
Defined.

(** The run of the witness above, spelled out. *)
Example video_run :
  let run :=
    handlerUploadVideo (Sample.ext (Sample.probed (JNum 1920) (JNum 1080)) true)
      Sample.cfg (Sample.upload "video" (Sample.fileOf 1000 "video/mp4")) Sample.world in
  events_since Sample.world (snd run)
  = [EvGetBearerToken; EvValidateJWT; EvGetVideo "v1"; EvFormData;
     EvWrite "/tmp/v1.mp4"; EvSpawn (ffprobe_argv "/tmp/v1.mp4");
     EvUploadVideoToS3 "landscape/v1.mp4" "/tmp/v1.mp4" "video/mp4";
     EvUpdateVideo
       (set_videoURL Sample.video
          "https://tubely.s3.us-east-1.amazonaws.com/landscape/v1.mp4");
     EvRm "/tmp/v1.mp4"]
  /\ files (snd run) !! "/tmp/v1.mp4" = None
  /\ objects (snd run) !! "landscape/v1.mp4"
     = Some (file_bytes (Sample.fileOf 1000 "video/mp4"), "video/mp4").
Proof. vm_compute. repeat split. Qed.

(** C1 fails on the code.  In every run that returns a response the file
    handed to the uploader is the staged upload itself, the object stored is
    that file's bytes, the only subprocess started is ffprobe, and the path
    uploaded is not the one [processVideoForFastStart] would have produced:
    the handler never calls it. *)
Theorem upload_sends_staged_file ext cfg req w resp :
  fst (handlerUploadVideo ext cfg req w) = inr resp ->
  exists videoId video file classification,
    let run := handlerUploadVideo ext cfg req w in
    let tmp := tempFilePath ext videoId in
    reachesStaging ext cfg req w videoId video file /\
    (forall key path ct,
        EvUploadVideoToS3 key path ct ∈ events_since w (snd run) -> path = tmp) /\
    EvUploadVideoToS3 (deriveKey classification videoId) tmp "video/mp4"
      ∈ events_since w (snd run) /\
    objects (snd run) !! deriveKey classification videoId
      = Some (file_bytes file, "video/mp4") /\
    (forall argv, EvSpawn argv ∈ events_since w (snd run) -> argv = ffprobe_argv tmp) /\
    (forall w0, fst (processVideoForFastStart ext tmp w0) <> inr tmp).
Proof.
  intros Hok.
  destruct (successful_upload ext cfg req w resp Hok)
    as (videoId & video & file & a & Hst & _ & _ & _ & _ & _ & Hobj & Hlog).
  exists videoId, video, file, a. cbv zeta.
  rewrite (events_since_app _ _ _ Hlog).
  split; [exact Hst |].
  split; [| split; [| split; [| split]]].
  - intros key path ct Hin. apply elem_of_app in Hin as [Hin | Hin].
    + exfalso. revert Hin. unfold stagingEvents. absent.
    + apply elem_of_cons in Hin as [Hin | Hin]; [congruence |].
      exfalso. revert Hin. absent.
  - apply elem_of_app. right. present.
  - rewrite Hobj. apply lookup_insert_eq.
  - intros argv Hin. apply elem_of_app in Hin as [Hin | Hin].
    + unfold stagingEvents in Hin.
      do 5 (apply elem_of_cons in Hin as [Hin | Hin]; [discriminate Hin |]).
      apply elem_of_cons in Hin as [Hin | Hin]; [congruence |].
      apply elem_of_nil in Hin. contradiction.
    + exfalso. revert Hin. absent.
  - intros w0. unfold processVideoForFastStart, spawn_ffmpeg. munfold. simpl.
    destruct (negb _); simpl; [discriminate |].
    intros [= Heq]. apply (f_equal String.length) in Heq.
    rewrite string_length_app in Heq. simpl in Heq. lia.
Qed.

Lemma upload_sends_staged_file_witness :
  exists videoId video file classification,
    let ext := Sample.ext (Sample.probed (JNum 1920) (JNum 1080)) true in
    let req := Sample.upload "video" (Sample.fileOf 1000 "video/mp4") in
    let run := handlerUploadVideo ext Sample.cfg req Sample.world in
    let tmp := tempFilePath ext videoId in
    reachesStaging ext Sample.cfg req Sample.world videoId video file /\
    (forall key path ct,
        EvUploadVideoToS3 key path ct ∈ events_since Sample.world (snd run) ->
        path = tmp) /\
    EvUploadVideoToS3 (deriveKey classification videoId) tmp "video/mp4"
      ∈ events_since Sample.world (snd run) /\
    objects (snd run) !! deriveKey classification videoId
      = Some (file_bytes file, "video/mp4") /\
    (forall argv, EvSpawn argv ∈ events_since Sample.world (snd run) ->
                  argv = ffprobe_argv tmp) /\
    (forall w0, fst (processVideoForFastStart ext tmp w0) <> inr tmp).
Proof.
  exact (upload_sends_staged_file
           (Sample.ext (Sample.probed (JNum 1920) (JNum 1080)) true) Sample.cfg
           (Sample.upload "video" (Sample.fileOf 1000 "video/mp4")) Sample.world
           (respondWithJSON 200
              (Some (set_videoURL Sample.video
                       "https://tubely.s3.us-east-1.amazonaws.com/landscape/v1.mp4")))
           eq_refl).
Defined.

(** ** The transient file *)

(** On the success path the staged file is removed. *)
Lemma staged_file_removed_on_success ext cfg req w resp :
  fst (handlerUploadVideo ext cfg req w) = inr resp ->
  exists videoId,
    params_videoId req = Some videoId /\
    EvWrite (tempFilePath ext videoId) ∈ events_since w (snd (handlerUploadVideo ext cfg req w)) /\
    files (snd (handlerUploadVideo ext cfg req w)) !! tempFilePath ext videoId = None.
Proof.
  intros Hok.
  destruct (successful_upload ext cfg req w resp Hok)
    as (videoId & video & file & a & Hst & _ & _ & _ & Hfiles & _ & _ & Hlog).
  exists videoId. split; [exact (proj1 (proj1 Hst)) |].
  rewrite (events_since_app _ _ _ Hlog), Hfiles.
  split; [| apply lookup_delete_eq].
  apply elem_of_app. left. unfold stagingEvents. present.
Qed.

(** C2 fails on the code.  Whenever a staged upload ends in a throw (the
    probe fails or the storage upload fails), the error propagates with the
    staged file still on disk and without any [rm] having been called: the
    removal sits at the end of the success path only. *)
Theorem staged_file_left_on_failure ext cfg req w videoId video file e :
  reachesStaging ext cfg req w videoId video file ->
  fst (handlerUploadVideo ext cfg req w) = inl e ->
  files (snd (handlerUploadVideo ext cfg req w)) !! tempFilePath ext videoId
  = Some (file_bytes file)
  /\ forall path, EvRm path ∉ events_since w (snd (handlerUploadVideo ext cfg req w)).
Proof.
  intros Hst Hfail.
  destruct (staged_outcomes ext cfg req w videoId video file Hst)
    as [(e' & evs & _ & _ & _ & Hf & _ & _ & Hlog & Hevs)
       | [(a & _ & _ & _ & Hf & _ & _ & Hlog)
         | (a & _ & _ & Hr & _)]].
  - rewrite Hf, (events_since_app _ _ _ Hlog). split; [apply lookup_insert_eq |].
    intros path Hin. apply elem_of_app in Hin as [Hin | Hin].
    + revert Hin. unfold stagingEvents. absent.
    + destruct Hevs as [-> | ->]; revert Hin; absent.
  - rewrite Hf, (events_since_app _ _ _ Hlog). split; [apply lookup_insert_eq |].
    intros path Hin. apply elem_of_app in Hin as [Hin | Hin].
    + revert Hin. unfold stagingEvents. absent.
    + revert Hin. absent.
  - rewrite Hr in Hfail. discriminate.
Qed.

Lemma staged_file_left_on_failure_witness :
  let run :=
    handlerUploadVideo (Sample.ext Sample.probeFailed true) Sample.cfg
      (Sample.upload "video" (Sample.fileOf 1000 "video/mp4")) Sample.world in
  fst run
  = inl (JsError "ffprobe failed with exit code 1: Invalid data found when processing input")
  /\ files (snd run) !! "/tmp/v1.mp4" = Some (file_bytes (Sample.fileOf 1000 "video/mp4"))
  /\ forall path, EvRm path ∉ events_since Sample.world (snd run).
Proof.
  intros run. split; [reflexivity |].
  exact (staged_file_left_on_failure (Sample.ext Sample.probeFailed true) Sample.cfg
           (Sample.upload "video" (Sample.fileOf 1000 "video/mp4")) Sample.world
           "v1" Sample.video (Sample.fileOf 1000 "video/mp4")
           (JsError "ffprobe failed with exit code 1: Invalid data found when processing input")
           (sample_reachesStaging _ _) eq_refl).
Defined.

(** ** The thumbnail's name *)

(** Induction on lists three elements at a time, the way the encoder reads
    its input. *)
Lemma list_ind3 {A : Type} (P : list A -> Prop) :
  P [] -> (forall a, P [a]) -> (forall a b, P [a; b]) ->
  (forall a b c l, P l -> P (a :: b :: c :: l)) ->
  forall l, P l.
Proof.
  intros H0 H1 H2 H3.
  fix IH 1. intros [| a [| b [| c l]]].
  - exact H0.
  - exact (H1 a).
  - exact (H2 a b).
  - exact (H3 a b c l (IH l)).
Qed.

Lemma base64url_length (bs : list byte) :
  String.length (base64url bs) = ((4 * length bs + 2) / 3)%nat.
Proof.
  induction bs as [| a | a b | a b c l IH] using list_ind3; try reflexivity.
  change (String.length (base64url (a :: b :: c :: l)))
    with (4 + String.length (base64url l))%nat.
  rewrite IH. change (length (a :: b :: c :: l)) with (3 + length l)%nat.
  replace (4 * (3 + length l) + 2)%nat with ((4 * length l + 2) + 4 * 3)%nat by lia.
  rewrite Nat.div_add by lia. lia.
Qed.

Lemma sextet_in_alphabet (n : N) : sextet n ∈ base64url_alphabet.
Proof.
  unfold sextet. apply list_elem_of_In.
  destruct (Nat.lt_ge_cases (N.to_nat n) (length base64url_alphabet)) as [Hlt | Hge].
  - apply nth_In. exact Hlt.
  - rewrite nth_overflow by exact Hge. vm_compute. left. reflexivity.
Qed.

Lemma base64url_alphabet_only (bs : list byte) :
  Forall (fun c => c ∈ base64url_alphabet) (list_ascii_of_string (base64url bs)).
Proof.
  induction bs as [| a | a b | a b c l IH] using list_ind3; simpl;
    repeat (apply Forall_cons; split; [apply sextet_in_alphabet |]);
    first [apply Forall_nil; exact I | exact IH | apply Forall_nil].
Qed.

Lemma includes_allowed (x : string) :
  includes ["image/jpeg"; "image/png"] x = true -> x = "image/jpeg" \/ x = "image/png".
Proof.
  unfold includes. simpl. rewrite orb_false_r. intros H.
  apply orb_true_iff in H as [H | H]; apply String.eqb_eq in H; auto.
Qed.

Lemma byte_bound (a : byte) : (Byte.to_N a < 256)%N.
Proof. pose proof (Byte.to_N_bounded a). lia. Qed.

(** The quotients and remainders of a byte by 4, 16 and 64. *)
Ltac split_byte x :=
  pose proof (byte_bound x);
  pose proof (N.div_mod (Byte.to_N x) 4 ltac:(lia));
  pose proof (N.mod_lt (Byte.to_N x) 4 ltac:(lia));
  pose proof (N.div_mod (Byte.to_N x) 16 ltac:(lia));
  pose proof (N.mod_lt (Byte.to_N x) 16 ltac:(lia));
  pose proof (N.div_mod (Byte.to_N x) 64 ltac:(lia));
  pose proof (N.mod_lt (Byte.to_N x) 64 ltac:(lia));
  pose proof (N.le_0_l (Byte.to_N x / 4));
  pose proof (N.le_0_l (Byte.to_N x mod 4));
  pose proof (N.le_0_l (Byte.to_N x / 16));
  pose proof (N.le_0_l (Byte.to_N x mod 16));
  pose proof (N.le_0_l (Byte.to_N x / 64));
  pose proof (N.le_0_l (Byte.to_N x mod 64)).

(** The 6-bit number at place [i] of a number written out in base 64. *)
Lemma sixBits_unique (n i q d r : N) :
  (n = (q * 64 + d) * 64 ^ i + r)%N -> (d < 64)%N -> (r < 64 ^ i)%N ->
  sixBits n i = d.
Proof.
  intros -> Hd Hr. unfold sixBits.
  rewrite <- (N.div_unique _ (64 ^ i) (q * 64 + d) r Hr) by lia.
  symmetry. apply (N.mod_unique _ 64 q d Hd). lia.
Qed.

(** [base64url] is the encoding of RFC 4648: the characters it prints are
    the base-64 digits of each group, most significant first. *)
Lemma base64url_rfc4648 (bs : list byte) : base64url bs = rfc4648_base64url bs.
Proof.
  induction bs as [| a | a b | a b c l IH] using list_ind3; [reflexivity | | |];
    cbn [base64url rfc4648_base64url]; cbv zeta; rewrite ?IH;
    unfold rfc4648_char, sextet;
    try split_byte a; try split_byte b; try split_byte c.
  - rewrite (sixBits_unique _ 1 0 (Byte.to_N a / 4) ((Byte.to_N a mod 4) * 16))
      by (cbn; lia).
    rewrite (sixBits_unique _ 0 (Byte.to_N a / 4) ((Byte.to_N a mod 4) * 16) 0)
      by (cbn; lia).
    reflexivity.
  - rewrite (sixBits_unique _ 2 0 (Byte.to_N a / 4)
               ((Byte.to_N a mod 4) * 1024 + Byte.to_N b * 4)) by (cbn; lia).
    rewrite (sixBits_unique _ 1 (Byte.to_N a / 4)
               ((Byte.to_N a mod 4) * 16 + Byte.to_N b / 16)
               ((Byte.to_N b mod 16) * 4)) by (cbn; lia).
    rewrite (sixBits_unique _ 0 (Byte.to_N a * 16 + Byte.to_N b / 16)
               ((Byte.to_N b mod 16) * 4) 0) by (cbn; lia).
    reflexivity.
  - rewrite (sixBits_unique _ 3 0 (Byte.to_N a / 4)
               ((Byte.to_N a mod 4) * 65536 + Byte.to_N b * 256 + Byte.to_N c))
      by (cbn; lia).
    rewrite (sixBits_unique _ 2 (Byte.to_N a / 4)
               ((Byte.to_N a mod 4) * 16 + Byte.to_N b / 16)
               ((Byte.to_N b mod 16) * 256 + Byte.to_N c)) by (cbn; lia).
    rewrite (sixBits_unique _ 1 (Byte.to_N a * 16 + Byte.to_N b / 16)
               ((Byte.to_N b mod 16) * 4 + Byte.to_N c / 64)
               (Byte.to_N c mod 64)) by (cbn; lia).
    rewrite (sixBits_unique _ 0 (Byte.to_N a * 1024 + Byte.to_N b * 4 + Byte.to_N c / 64)
               (Byte.to_N c mod 64) 0) by (cbn; lia).
    reflexivity.
Qed.

(** A thumbnail upload that returns a response drew 32 random bytes, wrote
    the file and issued the record update. *)
Lemma successful_thumbnail ext cfg req w resp w' :
  handlerUploadThumbnail ext cfg req w = (inr resp, w') ->
  exists videoId video fd file,
    params_videoId req = Some videoId /\
    videos w !! videoId = Some video /\
    body req = Some fd /\ formData_get fd "thumbnail" = Some (FormFile file) /\
    (file_type file = "image/jpeg" \/ file_type file = "image/png") /\
    let random := map (entropy ext) (seq (drawn w) 32) in
    let thumbnailFilename := base64url random +:+ "." +:+ file_type file in
    log w'
    = log w ++ [EvGetBearerToken; EvValidateJWT; EvGetVideo videoId; EvFormData;
                EvRandomBytes 32;
                EvWrite (path_join ext [assetsRoot cfg; "thumbnails"; thumbnailFilename]);
                EvUpdateVideo
                  (set_thumbnailURL video
                     ("http://localhost:" +:+ port cfg +:+ "/assets/thumbnails/"
                      +:+ thumbnailFilename))].
Proof.
  intros Hok. unfold handlerUploadThumbnail, randomBytes in Hok. hunfold.
  destruct (params_videoId req) as [videoId|] eqn:Hid; [| discriminate Hok].
  cbv beta iota in Hok.
  destruct (String.eqb videoId ""); simpl in Hok; [discriminate Hok |].
  destruct (getBearerToken ext (headers req)) as [token|];
    simpl in Hok; [| discriminate Hok].
  destruct (validateJWT ext token (jwtSecret cfg)) as [user|];
    simpl in Hok; [| discriminate Hok].
  destruct (videos w !! videoId) as [video|] eqn:Hvid;
    simpl in Hok; [| discriminate Hok].
  destruct (String.eqb (userID video) user); simpl in Hok; [| discriminate Hok].
  destruct (body req) as [fd|] eqn:Hbody; simpl in Hok; [| discriminate Hok].
  destruct (formData_get fd "thumbnail") as [[s|file]|] eqn:Hget;
    simpl in Hok; try discriminate Hok.
  destruct (file_size file >? shl32 10 20)%Z; simpl in Hok; [discriminate Hok |].
  destruct (String.eqb (file_type file) ""); simpl in Hok; [discriminate Hok |].
  destruct (includes ["image/jpeg"; "image/png"] (file_type file)) eqn:Hinc;
    simpl in Hok; [| discriminate Hok].
  injection Hok as _ <-.
  exists videoId, video, fd, file.
  repeat (split; [first [reflexivity | assumption] |]).
  split; [exact (includes_allowed _ Hinc) |].
  cbv zeta. simpl. rewrite <- !app_assoc. reflexivity.
Qed.

(** The run of the thumbnail handler on a request of the record's owner
    whose body can be read. *)
Lemma handlerUploadThumbnail_owner ext cfg req w videoId video fd :
  fromOwner ext cfg req w videoId video -> body req = Some fd ->
  handlerUploadThumbnail ext cfg req w
  = let gate := with_log w (log w ++ [EvGetBearerToken; EvValidateJWT;
                                      EvGetVideo videoId; EvFormData]) in
    match formData_get fd "thumbnail" with
    | Some (FormFile file) =>
        if (10485760 <? file_size file)%Z
        then (inl (BadRequestError
                     "Thumbnail file exceeds the maximum allowed size of 10MB"), gate)
        else if String.eqb (file_type file) ""
        then (inl (BadRequestError "Missing Content-Type for thumbnail"), gate)
        else if includes ["image/jpeg"; "image/png"] (file_type file)
        then (inr (respondWithJSON 200 None),
              thumbnailStored ext cfg w videoId video file)
        else (inl (BadRequestError "Invalid thumbnail file type"), gate)
    | _ => (inl (BadRequestError "Thumbnail file missing"), gate)
    end.
Proof.
  intros (Hid & Hne & Huser & Hvid) Hbody.
  unfold resolvedUser in Huser.
  destruct (getBearerToken ext (headers req)) as [token|] eqn:Htok; [| discriminate].
  unfold handlerUploadThumbnail, randomBytes. rewrite Hid, (eqb_empty_false _ Hne).
  hunfold. simpl. rewrite Htok. simpl. rewrite Huser. simpl. rewrite Hvid.
  rewrite String.eqb_refl. simpl. rewrite Hbody. simpl.
  destruct (formData_get fd "thumbnail") as [[s|file]|]; simpl;
    try (rewrite <- !app_assoc; reflexivity).
  rewrite Z.gtb_ltb. change (shl32 10 20) with 10485760%Z.
  destruct (10485760 <? file_size file)%Z; simpl;
    [rewrite <- !app_assoc; reflexivity |].
  destruct (String.eqb (file_type file) ""); simpl;
    [rewrite <- !app_assoc; reflexivity |].
  destruct (includes ["image/jpeg"; "image/png"] (file_type file)); simpl;
    [| rewrite <- !app_assoc; reflexivity].
  unfold thumbnailStored, thumbnailName. cbv zeta. simpl.
  rewrite <- !app_assoc. reflexivity.
Qed.

(** Every other run throws at one of the identifier, credential, record and
    ownership checks, or at the reading of the body. *)
Lemma handlerUploadThumbnail_cases ext cfg req w :
  (exists e evs,
      handlerUploadThumbnail ext cfg req w = (inl e, with_log w (log w ++ evs))
      /\ forallb authEvent evs = true
      /\ forall videoId video, ~ fromOwner ext cfg req w videoId video)
  \/ (exists videoId video,
         fromOwner ext cfg req w videoId video /\ body req = None
         /\ handlerUploadThumbnail ext cfg req w
            = (inl TypeError,
               with_log w (log w ++ [EvGetBearerToken; EvValidateJWT;
                                     EvGetVideo videoId; EvFormData])))
  \/ (exists videoId video fd,
         fromOwner ext cfg req w videoId video /\ body req = Some fd).
Proof.
  unfold handlerUploadThumbnail, fromOwner, resolvedUser.
  destruct (params_videoId req) as [videoId|] eqn:Hid.
  2:{ left. exists (BadRequestError "Invalid video ID"), []. simpl.
      rewrite app_nil_r. destruct w. split; [reflexivity |].
      split; [reflexivity |]. intros ? ? (? & _). discriminate. }
  destruct (String.eqb videoId "") eqn:Hne.
  { left. exists (BadRequestError "Invalid video ID"), []. simpl.
    rewrite app_nil_r. destruct w. split; [reflexivity |].
    split; [reflexivity |]. apply String.eqb_eq in Hne.
    intros ? ? (Hsome & Hn & _). injection Hsome as <-. exact (Hn Hne). }
  apply String.eqb_neq in Hne.
  hunfold. simpl.
  destruct (getBearerToken ext (headers req)) as [token|] eqn:Htok; simpl.
  2:{ left. eexists _, [_]. split; [reflexivity |]. split; [reflexivity |].
      intros ? ? (_ & _ & ? & _). discriminate. }
  destruct (validateJWT ext token (jwtSecret cfg)) as [user|] eqn:Huser; simpl.
  2:{ left. eexists _, [_; _]. rewrite <- app_assoc.
      split; [reflexivity |]. split; [reflexivity |].
      intros ? ? (_ & _ & ? & _). discriminate. }
  destruct (videos w !! videoId) as [video|] eqn:Hvid; simpl.
  2:{ left. eexists _, [_; _; _]. rewrite <- !app_assoc.
      split; [reflexivity |]. split; [reflexivity |].
      intros ? ? (Hsome & _ & _ & Hfound). injection Hsome as <-.
      rewrite Hvid in Hfound. discriminate. }
  destruct (String.eqb (userID video) user) eqn:Hown; simpl.
  2:{ left. eexists _, [_; _; _]. rewrite <- !app_assoc.
      split; [reflexivity |]. split; [reflexivity |].
      intros ? v (Hsome & _ & Hres & Hfound). injection Hsome as <-.
      rewrite Hvid in Hfound. injection Hfound as <-. injection Hres as ->.
      rewrite String.eqb_refl in Hown. discriminate. }
  apply String.eqb_eq in Hown. subst user. right.
  destruct (body req) as [fd|] eqn:Hbody; simpl.
  - right. exists videoId, video, fd. repeat split; auto.
  - left. exists videoId, video. rewrite <- !app_assoc. repeat split; auto.
Qed.

(** Every run of the thumbnail handler either throws, having logged gate
    calls only and changed nothing else, or stores the thumbnail. *)
Lemma handlerUploadThumbnail_outcomes ext cfg req w :
  (exists e evs,
      handlerUploadThumbnail ext cfg req w = (inl e, with_log w (log w ++ evs))
      /\ forallb gateEvent evs = true
      /\ (EvFormData ∈ evs
          <-> exists videoId video, fromOwner ext cfg req w videoId video))
  \/ (exists videoId video fd file,
         fromOwner ext cfg req w videoId video
         /\ body req = Some fd
         /\ formData_get fd "thumbnail" = Some (FormFile file)
         /\ (file_size file <= 10485760)%Z
         /\ (file_type file = "image/jpeg" \/ file_type file = "image/png")
         /\ handlerUploadThumbnail ext cfg req w
            = (inr (respondWithJSON 200 None),
               thumbnailStored ext cfg w videoId video file)).
Proof.
  destruct (handlerUploadThumbnail_cases ext cfg req w)
    as [(e & evs & Hrun & Hauth & Hnot)
       | [(videoId & video & Hown & Hbody & Hrun)
         | (videoId & video & fd & Hown & Hbody)]].
  - left. exists e, evs. split; [exact Hrun |]. split.
    + rewrite forallb_forall in *. intros ev Hev. specialize (Hauth ev Hev).
      destruct ev; try discriminate Hauth; reflexivity.
    + split.
      * intros Hin. exfalso. exact (forallb_absent authEvent evs EvFormData Hauth eq_refl Hin).
      * intros (videoId & video & Hown). exfalso. exact (Hnot _ _ Hown).
  - left. eexists _, _. split; [exact Hrun |]. split; [reflexivity |].
    split; [intros _; eauto | intros _; present].
  - pose proof (handlerUploadThumbnail_owner ext cfg req w videoId video fd Hown Hbody)
      as Hrun.
    cbv zeta in Hrun.
    assert (Hgate : forall e : Exn,
               exists e' evs,
                 (inl e : Exn + Response,
                  with_log w (log w ++ [EvGetBearerToken; EvValidateJWT;
                                        EvGetVideo videoId; EvFormData]))
                 = (inl e', with_log w (log w ++ evs))
                 /\ forallb gateEvent evs = true
                 /\ (EvFormData ∈ evs
                     <-> exists videoId video, fromOwner ext cfg req w videoId video)).
    { intros e. eexists _, _. split; [reflexivity |]. split; [reflexivity |].
      split; [intros _; eauto | intros _; present]. }
    destruct (formData_get fd "thumbnail") as [[s|file]|] eqn:Hget;
      try (left; rewrite Hrun; apply Hgate).
    destruct (10485760 <? file_size file)%Z eqn:Hsize;
      [left; rewrite Hrun; apply Hgate |].
    destruct (String.eqb (file_type file) "");
      [left; rewrite Hrun; apply Hgate |].
    destruct (includes ["image/jpeg"; "image/png"] (file_type file)) eqn:Hinc;
      [| left; rewrite Hrun; apply Hgate].
    right. exists videoId, video, fd, file.
    apply Z.ltb_ge in Hsize.
    repeat (split; [assumption |]).
    split; [exact (includes_allowed _ Hinc) | exact Hrun].
Qed.

(** C10. For every accepted thumbnail upload, the name of the stored file is
    the base64url encoding of the 32 random bytes (the base-64 digits RFC
    4648 prescribes), 43 characters of the base64url alphabet, followed by a
    dot and the declared media type, which is image/jpeg or image/png.  So
    the name reads "{random}.image/jpeg" or "{random}.image/png", with a
    slash in what follows the dot; the uploaded bytes are on disk under that
    name, and the thumbnail URL of the record that is updated, and of the
    record stored afterwards, is
    "http://localhost:{port}/assets/thumbnails/{random}.image/{subtype}". *)
Theorem thumbnail_filename ext cfg req w resp :
  fst (handlerUploadThumbnail ext cfg req w) = inr resp ->
  exists videoId fd file video randomName subtype,
    let run := handlerUploadThumbnail ext cfg req w in
    let filename := randomName +:+ "." +:+ file_type file in
    let path := path_join ext [assetsRoot cfg; "thumbnails"; filename] in
    let url := "http://localhost:" +:+ port cfg +:+ "/assets/thumbnails/"
               +:+ randomName +:+ ".image/" +:+ subtype in
    params_videoId req = Some videoId /\ videos w !! videoId = Some video /\
    body req = Some fd /\ formData_get fd "thumbnail" = Some (FormFile file) /\
    randomName = rfc4648_base64url (map (entropy ext) (seq (drawn w) 32)) /\
    String.length randomName = 43%nat /\
    Forall (fun c => c ∈ base64url_alphabet) (list_ascii_of_string randomName) /\
    (subtype = "jpeg" \/ subtype = "png") /\
    file_type file = "image/" +:+ subtype /\
    filename = (randomName +:+ ".image") +:+ "/" +:+ subtype /\
    EvWrite path ∈ events_since w (snd run) /\
    files (snd run) !! path = Some (file_bytes file) /\
    (exists v, EvUpdateVideo v ∈ events_since w (snd run)) /\
    (forall v, EvUpdateVideo v ∈ events_since w (snd run) ->
               thumbnailURL v = Some url /\ id v = id video) /\
    (forall v, videos (snd run) !! id video = Some v -> thumbnailURL v = Some url).
Proof.
  intros Hok.
  destruct (handlerUploadThumbnail_outcomes ext cfg req w)
    as [(e' & evs & Hrun & _)
       | (videoId & video & fd & file & Hown & Hbody & Hget & _ & Htype & Hrun)];
    rewrite Hrun in *; simpl in Hok; [discriminate Hok |].
  destruct Hown as (Hid & _ & _ & Hvid).
  assert (Hsub : exists subtype, (subtype = "jpeg" \/ subtype = "png")
                                 /\ file_type file = "image/" +:+ subtype).
  { destruct Htype as [-> | ->]; [exists "jpeg" | exists "png"]; auto. }
  destruct Hsub as (subtype & Hsub & Hmime).
  exists videoId, fd, file, video,
    (base64url (map (entropy ext) (seq (drawn w) 32))), subtype.
  cbv zeta. cbn [snd].
  assert (Hurl : "http://localhost:" +:+ port cfg +:+ "/assets/thumbnails/"
                 +:+ thumbnailName ext w file
                 = "http://localhost:" +:+ port cfg +:+ "/assets/thumbnails/"
                   +:+ base64url (map (entropy ext) (seq (drawn w) 32))
                   +:+ ".image/" +:+ subtype).
  { unfold thumbnailName. rewrite Hmime. reflexivity. }
  erewrite events_since_app by reflexivity.
  unfold thumbnailStored. cbv zeta. cbn [files videos]. fold (thumbnailName ext w file).
  do 4 (split; [assumption |]).
  split; [apply base64url_rfc4648 |].
  split; [rewrite base64url_length, length_map, length_seq; reflexivity |].
  split; [apply base64url_alphabet_only |].
  split; [exact Hsub |]. split; [exact Hmime |].
  split; [unfold thumbnailName; rewrite Hmime, string_app_assoc; reflexivity |].
  split; [present |].
  split; [apply lookup_insert_eq |].
  split; [eexists; present |].
  split.
  - intros v Hin.
    repeat (apply elem_of_cons in Hin as [Hin | Hin]; [try discriminate Hin |]);
      [| apply elem_of_nil in Hin; destruct Hin].
    injection Hin as ->. cbn [thumbnailURL set_thumbnailURL id].
    rewrite Hurl. split; reflexivity.
  - intros v. cbn [id set_thumbnailURL]. rewrite lookup_alter_eq.
    destruct (videos w !! id video); intros Hv; [| discriminate Hv].
    injection Hv as <-. cbn [thumbnailURL set_thumbnailURL].
    rewrite Hurl. reflexivity.
Qed.

Lemma thumbnail_filename_witness :
  exists videoId fd file video randomName subtype,
    let ext := Sample.ext Sample.probeFailed true in
    let req := Sample.upload "thumbnail" (Sample.fileOf 1000 "image/png") in
    let run := handlerUploadThumbnail ext Sample.cfg req Sample.world in
    let filename := randomName +:+ "." +:+ file_type file in
    let path := path_join ext [assetsRoot Sample.cfg; "thumbnails"; filename] in
    let url := "http://localhost:" +:+ port Sample.cfg +:+ "/assets/thumbnails/"
               +:+ randomName +:+ ".image/" +:+ subtype in
    (params_videoId req = Some videoId /\ videos Sample.world !! videoId = Some video /\
     body req = Some fd /\ formData_get fd "thumbnail" = Some (FormFile file) /\
     randomName
     = rfc4648_base64url (map (entropy ext) (seq (drawn Sample.world) 32)) /\
     String.length randomName = 43%nat /\
     Forall (fun c => c ∈ base64url_alphabet) (list_ascii_of_string randomName) /\
     (subtype = "jpeg" \/ subtype = "png") /\
     file_type file = "image/" +:+ subtype /\
     filename = (randomName +:+ ".image") +:+ "/" +:+ subtype /\
     EvWrite path ∈ events_since Sample.world (snd run) /\
     files (snd run) !! path = Some (file_bytes file) /\
     (exists v, EvUpdateVideo v ∈ events_since Sample.world (snd run)) /\
     (forall v, EvUpdateVideo v ∈ events_since Sample.world (snd run) ->
                thumbnailURL v = Some url /\ id v = id video) /\
     (forall v, videos (snd run) !! id video = Some v -> thumbnailURL v = Some url))
    /\ randomName = "AAECAwQFBgcICQoLDA0ODxAREhMUFRYXGBkaGxwdHh8"
    /\ subtype = "png"
    /\ videoId = "v1" /\ video = Sample.video
    /\ path = "assets/thumbnails/AAECAwQFBgcICQoLDA0ODxAREhMUFRYXGBkaGxwdHh8.image/png"
    /\ url = "http://localhost:8091/assets/thumbnails/AAECAwQFBgcICQoLDA0ODxAREhMUFRYXGBkaGxwdHh8.image/png".
Proof.
  destruct (thumbnail_filename (Sample.ext Sample.probeFailed true) Sample.cfg
              (Sample.upload "thumbnail" (Sample.fileOf 1000 "image/png")) Sample.world
              (respondWithJSON 200 None) eq_refl)
    as (videoId & fd & file & video & randomName & subtype & Hall).
  exists videoId, fd, file, video, randomName, subtype.
  cbv zeta in Hall |- *. split; [exact Hall |].
  destruct Hall as (Hid & Hvid & Hbody & Hget & Hname & _ & _ & Hsub & Hmime & _).
  injection Hid as <-. vm_compute in Hvid. injection Hvid as <-.
  injection Hbody as <-. vm_compute in Hget. injection Hget as <-.
  vm_compute in Hname. subst randomName.
  assert (Hpng : subtype = "png").
  { destruct Hsub as [-> | ->]; [| reflexivity].
    vm_compute in Hmime. discriminate Hmime. }
  subst subtype. repeat split.
Defined.

(** The run of the witness above, spelled out. *)
Example thumbnail_run :
  log (snd (handlerUploadThumbnail (Sample.ext Sample.probeFailed true) Sample.cfg
              (Sample.upload "thumbnail" (Sample.fileOf 1000 "image/png")) Sample.world))
  = [EvGetBearerToken; EvValidateJWT; EvGetVideo "v1"; EvFormData; EvRandomBytes 32;
     EvWrite "assets/thumbnails/AAECAwQFBgcICQoLDA0ODxAREhMUFRYXGBkaGxwdHh8.image/png";
     EvUpdateVideo
       (set_thumbnailURL Sample.video
          "http://localhost:8091/assets/thumbnails/AAECAwQFBgcICQoLDA0ODxAREhMUFRYXGBkaGxwdHh8.image/png")].
Proof. vm_compute. reflexivity. Qed.

(** * Further properties of the four functions *)

(** ** getVideoAspectRatio, step by step *)

(** The whole run of [getVideoAspectRatio], result and world, by the exit
    code and the output of ffprobe. *)
Lemma getVideoAspectRatio_steps ext path w :
  let proc := ffprobe ext (ffprobe_argv path) (files w) in
  let spawned := with_log w (log w ++ [EvSpawn (ffprobe_argv path)]) in
  let logged := with_log w (log w ++ [EvSpawn (ffprobe_argv path); EvConsoleError]) in
  getVideoAspectRatio ext path w
  = if negb (exited proc =? 0)%Z then
      (inl (JsError ("ffprobe failed with exit code " +:+ pretty (exited proc)
                     +:+ ": " +:+ stderr proc)), spawned)
    else
      match stdout proc with
      | None => (inl SyntaxError, logged)
      | Some JNull => (inl TypeError, logged)
      | Some json =>
          let width := firstStreamField json "width" in
          let height := firstStreamField json "height" in
          if negb (ToBoolean width) || negb (ToBoolean height)
          then (inl (JsError "Width or height not found in ffprobe output"), logged)
          else
            match ToNumber (StringToNumber ext) (NumberToString ext) width with
            | inl e => (inl e, spawned)
            | inr x =>
                match ToNumber (StringToNumber ext) (NumberToString ext) height with
                | inl e => (inl e, spawned)
                | inr y => (inr (classifyRatio 0.05 (x / y)), spawned)
                end
            end
      end.
Proof.
  cbv zeta.
  unfold getVideoAspectRatio, spawn_ffprobe, console_error, firstStreamField.
  munfold. simpl.
  destruct (negb _); [reflexivity |].
  destruct (stdout _) as [json |]; simpl;
    [| rewrite <- app_assoc; reflexivity].
  rewrite member_streams.
  destruct json; simpl; try (rewrite <- app_assoc; reflexivity);
    (destruct (negb _ || negb _); simpl; [rewrite <- app_assoc; reflexivity |]);
    (destruct (ToNumber _ _ _); simpl; [reflexivity |]);
    destruct (ToNumber _ _ _); reflexivity.
Qed.

(** X1. When ffprobe exits with a code other than 0, [getVideoAspectRatio]
    throws "ffprobe failed with exit code {code}: {stderr}" whatever was
    printed on standard output: the output is not parsed, nothing is logged
    with [console.error], and the only call made is the one spawn. *)
Theorem probe_exit_code_checked_first ext path w :
  exited (ffprobe ext (ffprobe_argv path) (files w)) <> 0%Z ->
  fst (getVideoAspectRatio ext path w)
  = inl (JsError ("ffprobe failed with exit code "
                  +:+ pretty (exited (ffprobe ext (ffprobe_argv path) (files w)))
                  +:+ ": " +:+ stderr (ffprobe ext (ffprobe_argv path) (files w))))
  /\ events_since w (snd (getVideoAspectRatio ext path w)) = [EvSpawn (ffprobe_argv path)].
Proof.
  intros Hexit. rewrite getVideoAspectRatio_steps. cbv zeta.
  apply Z.eqb_neq in Hexit. rewrite Hexit. simpl.
  split; [reflexivity |]. apply events_since_app. reflexivity.
Qed.

Lemma probe_exit_code_checked_first_witness :
  fst (getVideoAspectRatio (Sample.ext Sample.probeFailed true) "/tmp/v1.mp4" Sample.world)
  = inl (JsError "ffprobe failed with exit code 1: Invalid data found when processing input")
  /\ events_since Sample.world
       (snd (getVideoAspectRatio (Sample.ext Sample.probeFailed true) "/tmp/v1.mp4"
               Sample.world))
     = [EvSpawn (ffprobe_argv "/tmp/v1.mp4")].
Proof.
  apply (probe_exit_code_checked_first (Sample.ext Sample.probeFailed true)
           "/tmp/v1.mp4" Sample.world).
  discriminate.
Defined.

(** X2. [getVideoAspectRatio] calls [console.error] exactly when ffprobe
    exited with code 0 and the parsing block threw: the output is not JSON,
    or the width or height read from it is falsy.  A failing exit code and a
    throw in the division are not logged. *)
Theorem console_error_marks_parse_failure ext path w :
  EvConsoleError ∈ events_since w (snd (getVideoAspectRatio ext path w))
  <-> exited (ffprobe ext (ffprobe_argv path) (files w)) = 0%Z
      /\ match stdout (ffprobe ext (ffprobe_argv path) (files w)) with
         | None => True
         | Some json => Falsy (firstStreamField json "width")
                        \/ Falsy (firstStreamField json "height")
         end.
Proof.
  rewrite getVideoAspectRatio_steps. cbv zeta.
  assert (Hspawned : EvConsoleError ∉ [EvSpawn (ffprobe_argv path)]) by absent.
  assert (Hlogged : EvConsoleError ∈ [EvSpawn (ffprobe_argv path); EvConsoleError])
    by present.
  assert (Hfalsy : forall json,
             negb (ToBoolean (firstStreamField json "width"))
             || negb (ToBoolean (firstStreamField json "height")) = true
             <-> Falsy (firstStreamField json "width")
                 \/ Falsy (firstStreamField json "height")).
  { intros json. rewrite orb_true_iff, !negb_true_iff. split.
    - intros [H | H]; [left | right]; apply ToBoolean_Falsy, H.
    - intros [H | H]; [left | right]; apply Falsy_ToBoolean, H. }
  destruct (exited _ =? 0)%Z eqn:Hexit; simpl.
  2:{ apply Z.eqb_neq in Hexit.
      rewrite (events_since_app _ _ [EvSpawn (ffprobe_argv path)]) by reflexivity.
      split; [intros H; contradiction | intros [H _]; contradiction]. }
  apply Z.eqb_eq in Hexit.
  destruct (stdout _) as [json |].
  2:{ rewrite (events_since_app _ _ [EvSpawn (ffprobe_argv path); EvConsoleError])
        by reflexivity. split; auto. }
  specialize (Hfalsy json).
  destruct json;
    try (destruct (negb _ || negb _) eqn:Hchk;
         [ rewrite (events_since_app _ _ [EvSpawn (ffprobe_argv path); EvConsoleError])
             by reflexivity;
           split; [intros _; split; [exact Hexit | apply Hfalsy; reflexivity] | auto]
         | assert (Hno : ~ (Falsy (firstStreamField _ "width")
                            \/ Falsy (firstStreamField _ "height")))
             by (intros H; apply Hfalsy in H; discriminate H);
           repeat (destruct (ToNumber _ _ _));
           rewrite (events_since_app _ _ [EvSpawn (ffprobe_argv path)]) by reflexivity;
           (split; [intros H; contradiction | intros [_ H]; contradiction]) ]).
  rewrite (events_since_app _ _ [EvSpawn (ffprobe_argv path); EvConsoleError])
    by reflexivity.
  split; [| auto]. intros _. split; [exact Hexit |]. left. apply falsy_missing.
Qed.

(** X3. An output with no first stream (no [streams] key, [streams] null or
    an empty [streams] array) does not crash the optional chain: with exit
    code 0 and an output other than [null], [getVideoAspectRatio] throws
    "Width or height not found in ffprobe output". *)
Theorem no_stream_is_not_found ext path w json :
  exited (ffprobe ext (ffprobe_argv path) (files w)) = 0%Z ->
  stdout (ffprobe ext (ffprobe_argv path) (files w)) = Some json ->
  json <> JNull ->
  getProp json "streams" = None \/ getProp json "streams" = Some JNull
  \/ getProp json "streams" = Some (JArr []) ->
  fst (getVideoAspectRatio ext path w)
  = inl (JsError "Width or height not found in ffprobe output").
Proof.
  intros Hexit Hout Hnull Hstreams.
  rewrite getVideoAspectRatio_steps. cbv zeta. rewrite Hexit, Hout. simpl.
  assert (Hw : firstStreamField json "width" = None).
  { unfold firstStreamField.
    destruct Hstreams as [-> | [-> | ->]]; reflexivity. }
  destruct json; try contradiction; rewrite Hw; reflexivity.
Qed.

Lemma no_stream_is_not_found_witness :
  fst (getVideoAspectRatio
         (Sample.ext {| exited := 0;
                        stdout := Some (JObj [("programs", JArr []); ("streams", JArr [])]);
                        stderr := "" |} true)
         "/tmp/v1.mp4" Sample.world)
  = inl (JsError "Width or height not found in ffprobe output").
Proof.
  apply (no_stream_is_not_found
           (Sample.ext {| exited := 0;
                          stdout := Some (JObj [("programs", JArr []); ("streams", JArr [])]);
                          stderr := "" |} true)
           "/tmp/v1.mp4" Sample.world
           (JObj [("programs", JArr []); ("streams", JArr [])])).
  - reflexivity.
  - reflexivity.
  - discriminate.
  - right. right. reflexivity.
Defined.

(** X4. [getVideoAspectRatio] only looks: whatever it returns or throws,
    the disk, the table of videos, the bucket and the random generator are as
    before, and the calls it made are one spawn of ffprobe on the given path,
    followed by at most one [console.error]. *)
Theorem probe_only_reads ext path w :
  let w' := snd (getVideoAspectRatio ext path w) in
  files w' = files w /\ videos w' = videos w /\ objects w' = objects w
  /\ drawn w' = drawn w
  /\ (events_since w w' = [EvSpawn (ffprobe_argv path)]
      \/ events_since w w' = [EvSpawn (ffprobe_argv path); EvConsoleError])
  /\ last (ffprobe_argv path) = Some path.
Proof.
  cbv zeta.
  destruct (getVideoAspectRatio_run ext path w)
    as [[a Hrun] | (e & evs & Hrun & Hevs & _)]; rewrite Hrun; simpl.
  - repeat (split; [reflexivity |]). split; [| reflexivity].
    left. apply events_since_app. reflexivity.
  - repeat (split; [reflexivity |]). split; [| reflexivity].
    destruct Hevs as [-> | ->]; [left | right]; apply events_since_app; reflexivity.
Qed.

(** ** Numbers the probe does not refuse *)

Lemma opposite_truthy (f : float) :
  ToBoolean (Some (JNum f)) = true -> ToBoolean (Some (JNum (- f))) = true.
Proof.
  unfold ToBoolean, PrimFloat.is_zero, PrimFloat.is_nan.
  rewrite !FloatAxioms.eqb_spec, FloatAxioms.opp_spec.
  replace (Prim2SF PrimFloat.zero) with (S754_zero false) by reflexivity.
  destruct (Prim2SF f) as [s | s | | s m e]; simpl; try (intros H; exact H);
    try (destruct s; intros H; exact H).
  intros _. rewrite SFeqb_finite_refl.
  destruct s; reflexivity.
Qed.

Lemma opposite_quotient (x y : float) : (- x / - y)%float = (x / y)%float.
Proof.
  apply FloatAxioms.Prim2SF_inj.
  rewrite !FloatAxioms.div_spec, !FloatAxioms.opp_spec.
  unfold SF64div.
  destruct (Prim2SF x) as [sx | sx | | sx mx ex], (Prim2SF y) as [sy | sy | | sy my ey];
    simpl; rewrite ?Bool.xorb_negb_negb; reflexivity.
Qed.

(** X5. The probe does not refuse negative dimensions: a first stream whose
    width and height are the opposites of two positive numbers passes the
    check and gets the classification of the positive pair. *)
Theorem negative_dimensions_classified ext path w json (width height : float) :
  exited (ffprobe ext (ffprobe_argv path) (files w)) = 0%Z ->
  stdout (ffprobe ext (ffprobe_argv path) (files w)) = Some json ->
  firstStreamField json "width" = Some (JNum (- width)) ->
  firstStreamField json "height" = Some (JNum (- height)) ->
  (0 <? width)%float = true -> (0 <? height)%float = true ->
  fst (getVideoAspectRatio ext path w)
  = inr (if (abs (width / height - 16 / 9) <? 0.05)%float then landscape
         else if (abs (width / height - 9 / 16) <? 0.05)%float then portrait
         else other).
Proof.
  intros Hexit Hout Hw Hh Hwpos Hhpos.
  rewrite (getVideoAspectRatio_parsed ext path w json Hexit Hout).
  destruct json; try discriminate Hw; cbv zeta;
    rewrite Hw, Hh, (opposite_truthy _ (positive_truthy _ Hwpos)),
      (opposite_truthy _ (positive_truthy _ Hhpos));
    simpl; rewrite opposite_quotient; reflexivity.
Qed.

Lemma negative_dimensions_classified_witness :
  fst (getVideoAspectRatio
         (Sample.ext (Sample.probed (JNum (-1920)) (JNum (-1080))) true)
         "/tmp/v1.mp4" Sample.world)
  = inr landscape.
Proof.
  exact (negative_dimensions_classified
           (Sample.ext (Sample.probed (JNum (-1920)) (JNum (-1080))) true)
           "/tmp/v1.mp4" Sample.world _ 1920%float 1080%float
           eq_refl eq_refl eq_refl eq_refl eq_refl eq_refl).
Defined.

(** ** processVideoForFastStart *)

(** X6. [processVideoForFastStart] spawns ffmpeg once, with the input as
    third argument and the input path plus ".processed" as last, and
    changes the world only through what ffmpeg does to the disk.  It returns
    that output path exactly when ffmpeg exits with code 0, and throws
    "ffmpeg failed with exit code {code}: {stderr}" otherwise; the path it
    returns is never the input path. *)
Theorem fast_start_outcomes ext input w :
  let output := input +:+ ".processed" in
  let argv := ffmpeg_argv input output in
  let proc := fst (ffmpeg ext argv (files w)) in
  let run := processVideoForFastStart ext input w in
  argv !! 2%nat = Some input /\ last argv = Some output /\ output <> input
  /\ events_since w (snd run) = [EvSpawn argv]
  /\ files (snd run) = snd (ffmpeg ext argv (files w))
  /\ videos (snd run) = videos w /\ objects (snd run) = objects w
  /\ (exited proc = 0%Z -> fst run = inr output)
  /\ (exited proc <> 0%Z ->
      fst run = inl (JsError ("ffmpeg failed with exit code " +:+ pretty (exited proc)
                              +:+ ": " +:+ stderr proc))).
Proof.
  cbv zeta.
  split; [reflexivity |]. split; [reflexivity |].
  split.
  { intros Heq. apply (f_equal String.length) in Heq.
    rewrite string_length_app in Heq. simpl in Heq. lia. }
  unfold processVideoForFastStart, spawn_ffmpeg. munfold. simpl.
  destruct (exited (fst (ffmpeg ext _ (files w))) =? 0)%Z eqn:Hexit; simpl.
  - split; [apply events_since_app; reflexivity |].
    do 3 (split; [reflexivity |]).
    split; [reflexivity |]. intros Hne. apply Z.eqb_eq in Hexit. contradiction.
  - split; [apply events_since_app; reflexivity |].
    do 3 (split; [reflexivity |]).
    split; [| reflexivity]. intros Heq. apply Z.eqb_neq in Hexit. contradiction.
Qed.

Lemma fast_start_outcomes_witness :
  let ext := Sample.ext Sample.probeFailed true in
  let disk := <["/tmp/v1.mp4" := [Byte.x00; Byte.x18]]> (∅ : gmap string (list byte)) in
  let run := processVideoForFastStart ext "/tmp/v1.mp4" (with_files Sample.world disk) in
  fst run = inr "/tmp/v1.mp4.processed"
  /\ files (snd run) !! "/tmp/v1.mp4.processed" = Some [Byte.x00; Byte.x18]
  /\ files (snd run) !! "/tmp/v1.mp4" = Some [Byte.x00; Byte.x18].
Proof.
  intros ext disk run.
  destruct (fast_start_outcomes ext "/tmp/v1.mp4" (with_files Sample.world disk))
    as (_ & _ & _ & _ & Hfiles & _ & _ & Hok & _).
  split; [exact (Hok eq_refl) |].
  subst run. rewrite Hfiles. split; reflexivity.
Defined.

(** ** handlerUploadVideo: the form, the disk and a second run *)

(** X7. When the owner's form has no [video] entry, or has a text entry
    under that name, [handlerUploadVideo] throws BadRequest "Video file
    missing" right after reading the body: no local file is written and no
    subprocess is started. *)
Theorem missing_video_field_rejected ext cfg req w videoId video fd :
  fromOwner ext cfg req w videoId video ->
  body req = Some fd ->
  formData_get fd "video" = None
  \/ (exists text, formData_get fd "video" = Some (FormString text)) ->
  let run := handlerUploadVideo ext cfg req w in
  fst run = inl (BadRequestError "Video file missing")
  /\ events_since w (snd run)
     = [EvGetBearerToken; EvValidateJWT; EvGetVideo videoId; EvFormData]
  /\ nothingStarted w (snd run).
Proof.
  intros (Hid & Hne & Huser & Hvid) Hbody Hget run. subst run.
  unfold resolvedUser in Huser.
  destruct (getBearerToken ext (headers req)) as [token|] eqn:Htok; [| discriminate].
  assert (Hrun : handlerUploadVideo ext cfg req w
                 = (inl (BadRequestError "Video file missing"),
                    with_log w (log w ++ [EvGetBearerToken; EvValidateJWT;
                                          EvGetVideo videoId; EvFormData]))).
  { unfold handlerUploadVideo. rewrite Hid, (eqb_empty_false _ Hne).
    hunfold. simpl. rewrite Htok. simpl. rewrite Huser. simpl. rewrite Hvid.
    rewrite String.eqb_refl. simpl. rewrite Hbody. simpl.
    destruct Hget as [-> | [text ->]]; rewrite <- !app_assoc; reflexivity. }
  rewrite Hrun. simpl.
  split; [reflexivity |].
  split; [apply events_since_app; reflexivity |].
  apply (gate_events_start_nothing _ _ videoId); reflexivity.
Qed.

Lemma missing_video_field_rejected_witness :
  let run :=
    handlerUploadVideo (Sample.ext Sample.probeFailed true) Sample.cfg
      (Sample.upload "thumbnail" (Sample.fileOf 1000 "video/mp4")) Sample.world in
  fst run = inl (BadRequestError "Video file missing")
  /\ events_since Sample.world (snd run)
     = [EvGetBearerToken; EvValidateJWT; EvGetVideo "v1"; EvFormData]
  /\ nothingStarted Sample.world (snd run).
Proof.
  apply (missing_video_field_rejected (Sample.ext Sample.probeFailed true) Sample.cfg
           (Sample.upload "thumbnail" (Sample.fileOf 1000 "video/mp4")) Sample.world
           "v1" Sample.video
           [("thumbnail", FormFile (Sample.fileOf 1000 "video/mp4"))]).
  - repeat split; try reflexivity. discriminate.
  - reflexivity.
  - left. reflexivity.
Defined.

(** X8. [handlerUploadVideo] touches one path of the local disk only, the
    staging path of the request: every other file is as before in every
    run, and after a run that returns a response nothing is left at the
    staging path, not even a file that was there before. *)
Theorem only_staging_path_touched ext cfg req w path :
  (forall videoId, params_videoId req = Some videoId -> path <> tempFilePath ext videoId) ->
  let run := handlerUploadVideo ext cfg req w in
  files (snd run) !! path = files w !! path
  /\ (forall resp videoId,
        fst run = inr resp -> params_videoId req = Some videoId ->
        files (snd run) !! tempFilePath ext videoId = None).
Proof.
  intros Hpath run. subst run.
  destruct (fst (handlerUploadVideo ext cfg req w)) as [e | resp] eqn:Hr.
  - split; [| intros resp videoId Hresp; discriminate Hresp].
    destruct (failed_upload ext cfg req w e Hr)
      as (_ & _ & [(evs & Hf & _) | (videoId & video & file & evs & Hst & Hf & _)]);
      rewrite Hf; [reflexivity |].
    apply lookup_insert_ne. apply not_eq_sym, Hpath. exact (proj1 (proj1 Hst)).
  - destruct (successful_upload ext cfg req w resp Hr)
      as (videoId & video & file & a & Hst & _ & _ & _ & Hf & _).
    cbv zeta in Hf. rewrite Hf.
    assert (Hid := proj1 (proj1 Hst)).
    split.
    + rewrite lookup_delete_ne by (apply not_eq_sym, Hpath, Hid).
      apply lookup_insert_ne. apply not_eq_sym, Hpath, Hid.
    + intros resp' videoId' _ Hid'. rewrite Hid in Hid'. injection Hid' as <-.
      apply lookup_delete_eq.
Qed.

Lemma only_staging_path_touched_witness :
  let stale := <["/tmp/v1.mp4" := [Byte.xff]]>
                 (<["/tmp/other.mp4" := [Byte.x01]]> (∅ : gmap string (list byte))) in
  let run :=
    handlerUploadVideo (Sample.ext (Sample.probed (JNum 1920) (JNum 1080)) true)
      Sample.cfg (Sample.upload "video" (Sample.fileOf 1000 "video/mp4"))
      (with_files Sample.world stale) in
  files (snd run) !! "/tmp/other.mp4" = Some [Byte.x01]
  /\ files (snd run) !! "/tmp/v1.mp4" = None.
Proof.
  intros stale run.
  destruct (only_staging_path_touched
              (Sample.ext (Sample.probed (JNum 1920) (JNum 1080)) true)
              Sample.cfg (Sample.upload "video" (Sample.fileOf 1000 "video/mp4"))
              (with_files Sample.world stale) "/tmp/other.mp4") as [Hother Hgone].
  { intros videoId [= <-]. discriminate. }
  split; [exact Hother |].
  exact (Hgone _ "v1" eq_refl eq_refl).
Defined.

(** X9. A run of [handlerUploadVideo] that returns a response made exactly
    nine calls, in this order: token, JWT, record lookup, body, write of the
    staging file, ffprobe, upload, record update, removal of the staging
    file.  The response has status 200 and carries the record as found,
    with the same identifier, owner, title, description and thumbnail URL,
    and a playback URL set. *)
Theorem successful_upload_trace ext cfg req w resp :
  fst (handlerUploadVideo ext cfg req w) = inr resp ->
  exists videoId video key url returned,
    let tmp := tempFilePath ext videoId in
    fromOwner ext cfg req w videoId video
    /\ events_since w (snd (handlerUploadVideo ext cfg req w))
       = [EvGetBearerToken; EvValidateJWT; EvGetVideo videoId; EvFormData;
          EvWrite tmp; EvSpawn (ffprobe_argv tmp);
          EvUploadVideoToS3 key tmp "video/mp4"; EvUpdateVideo returned; EvRm tmp]
    /\ status resp = 200%Z /\ payload resp = Some returned
    /\ id returned = id video /\ userID returned = userID video
    /\ title returned = title video /\ description returned = description video
    /\ thumbnailURL returned = thumbnailURL video
    /\ videoURL returned = Some url.
Proof.
  intros Hok.
  destruct (successful_upload ext cfg req w resp Hok)
    as (videoId & video & file & a & Hst & _ & _ & Hresp & _ & _ & _ & Hlog).
  cbv zeta in Hresp, Hlog.
  exists videoId, video, (deriveKey a videoId),
    (playbackURL (s3Bucket cfg) (s3Region cfg) (deriveKey a videoId)).
  eexists. cbv zeta.
  destruct Hst as [(Hid & Hne & Huser & Hvid & _) _].
  split; [repeat split; assumption |].
  split; [apply events_since_app; rewrite Hlog; reflexivity |].
  subst resp. repeat split.
Qed.

Lemma successful_upload_trace_witness :
  exists videoId video key url returned,
    let ext := Sample.ext (Sample.probed (JNum 1080) (JNum 1920)) true in
    let req := Sample.upload "video" (Sample.fileOf 1000 "video/mp4") in
    let tmp := tempFilePath ext videoId in
    fromOwner ext Sample.cfg req Sample.world videoId video
    /\ events_since Sample.world (snd (handlerUploadVideo ext Sample.cfg req Sample.world))
       = [EvGetBearerToken; EvValidateJWT; EvGetVideo videoId; EvFormData;
          EvWrite tmp; EvSpawn (ffprobe_argv tmp);
          EvUploadVideoToS3 key tmp "video/mp4"; EvUpdateVideo returned; EvRm tmp]
    /\ status (respondWithJSON 200
                 (Some (set_videoURL Sample.video
                          "https://tubely.s3.us-east-1.amazonaws.com/portrait/v1.mp4")))
       = 200%Z
    /\ payload (respondWithJSON 200
                  (Some (set_videoURL Sample.video
                           "https://tubely.s3.us-east-1.amazonaws.com/portrait/v1.mp4")))
       = Some returned
    /\ id returned = id video /\ userID returned = userID video
    /\ title returned = title video /\ description returned = description video
    /\ thumbnailURL returned = thumbnailURL video
    /\ videoURL returned = Some url.
Proof.
  exact (successful_upload_trace
           (Sample.ext (Sample.probed (JNum 1080) (JNum 1920)) true) Sample.cfg
           (Sample.upload "video" (Sample.fileOf 1000 "video/mp4")) Sample.world
           (respondWithJSON 200
              (Some (set_videoURL Sample.video
                       "https://tubely.s3.us-east-1.amazonaws.com/portrait/v1.mp4")))
           eq_refl).
Defined.

(** What the probe returns or throws depends on the world through the disk
    only. *)
Lemma probe_depends_on_disk ext path (w1 w2 : World) :
  files w1 = files w2 ->
  fst (getVideoAspectRatio ext path w1) = fst (getVideoAspectRatio ext path w2).
Proof.
  intros Hfiles. rewrite !getVideoAspectRatio_steps. cbv zeta. rewrite Hfiles.
  destruct (negb _); [reflexivity |].
  destruct (stdout _) as [json |]; [| reflexivity].
  destruct json; try reflexivity;
    (destruct (negb _ || negb _); [reflexivity |]);
    (destruct (ToNumber _ _ _); [reflexivity |]);
    destruct (ToNumber _ _ _); reflexivity.
Qed.

(** X10. Uploading the same request again right after a successful upload,
    with the outside world answering as before, succeeds with the same
    response and leaves the disk, the table of videos and the bucket exactly
    as the first upload left them, provided the record found is stored under
    its own identifier. *)
Theorem second_upload_changes_nothing ext cfg req w resp :
  fst (handlerUploadVideo ext cfg req w) = inr resp ->
  (forall videoId video,
      params_videoId req = Some videoId -> videos w !! videoId = Some video ->
      id video = videoId) ->
  let first := snd (handlerUploadVideo ext cfg req w) in
  let again := handlerUploadVideo ext cfg req first in
  fst again = inr resp
  /\ files (snd again) = files first
  /\ videos (snd again) = videos first
  /\ objects (snd again) = objects first.
Proof.
  intros Hok Hkey first again. subst again first.
  destruct (successful_upload ext cfg req w resp Hok)
    as (videoId & video & file & a & Hst & Hp & Hput & Hresp & Hf & Hv & Ho & _).
  cbv zeta in Hp, Hput, Hresp, Hf, Hv, Ho.
  set (w1 := snd (handlerUploadVideo ext cfg req w)) in *.
  set (tmp := tempFilePath ext videoId) in *.
  set (key := deriveKey a videoId) in *.
  set (url := playbackURL (s3Bucket cfg) (s3Region cfg) key) in *.
  destruct Hst as [(Hid & Hne & Huser & Hvid & fd & Hbody & Hget) [Hsize Htype]].
  assert (Hidv : id video = videoId) by exact (Hkey videoId video Hid Hvid).
  assert (Hst2 : reachesStaging ext cfg req w1 videoId (set_videoURL video url) file).
  { split; [| split; assumption].
    split; [exact Hid |]. split; [exact Hne |]. split; [exact Huser |].
    split; [| exists fd; split; assumption].
    rewrite Hv. simpl. rewrite Hidv, lookup_alter_eq, Hvid. reflexivity. }
  assert (Hdisk : files (stagedWorld ext w1 videoId file)
                  = files (stagedWorld ext w videoId file)).
  { unfold stagedWorld. simpl. fold tmp. rewrite Hf.
    rewrite insert_delete_eq, insert_insert_eq. reflexivity. }
  assert (Hp2 : fst (getVideoAspectRatio ext tmp (stagedWorld ext w1 videoId file))
                = inr a).
  { rewrite (probe_depends_on_disk ext tmp _ _ Hdisk). exact Hp. }
  destruct (staged_outcomes ext cfg req w1 videoId (set_videoURL video url) file Hst2)
    as [(e' & evs & Hp' & _)
       | [(a' & Hp' & Hput' & _)
         | (a' & Hp' & _ & Hr' & Hf' & Hv' & Ho' & _)]];
    cbv zeta in Hp'; fold tmp in Hp'; rewrite Hp2 in Hp'; try discriminate Hp';
    injection Hp' as <-.
  - fold key in Hput'. rewrite Hput in Hput'. discriminate Hput'.
  - cbv zeta in Hr', Hf', Hv', Ho'. fold tmp key url in Hr', Hf', Hv', Ho'.
    split; [rewrite Hr', Hresp; reflexivity |].
    split; [| split].
    + rewrite Hf', Hf. rewrite !delete_insert_eq, delete_delete_eq. reflexivity.
    + rewrite Hv', Hv. simpl.
      change (id (set_videoURL (set_videoURL video url) url)) with (id video).
      change (id (set_videoURL video url)) with (id video).
      apply map_eq. intros i.
      destruct (decide (id video = i)) as [<- | Hi].
      * rewrite !lookup_alter_eq. destruct (videos w !! id video); reflexivity.
      * rewrite !lookup_alter_ne by exact Hi. reflexivity.
    + rewrite Ho', Ho. apply insert_insert_eq.
Qed.

Lemma second_upload_changes_nothing_witness :
  let ext := Sample.ext (Sample.probed (JNum 1920) (JNum 1080)) true in
  let req := Sample.upload "video" (Sample.fileOf 1000 "video/mp4") in
  let first := snd (handlerUploadVideo ext Sample.cfg req Sample.world) in
  let again := handlerUploadVideo ext Sample.cfg req first in
  fst again
  = inr (respondWithJSON 200
           (Some (set_videoURL Sample.video
                    "https://tubely.s3.us-east-1.amazonaws.com/landscape/v1.mp4")))
  /\ files (snd again) = files first
  /\ videos (snd again) = videos first
  /\ objects (snd again) = objects first.
Proof.
  apply (second_upload_changes_nothing
           (Sample.ext (Sample.probed (JNum 1920) (JNum 1080)) true) Sample.cfg
           (Sample.upload "video" (Sample.fileOf 1000 "video/mp4")) Sample.world
           (respondWithJSON 200
              (Some (set_videoURL Sample.video
                       "https://tubely.s3.us-east-1.amazonaws.com/landscape/v1.mp4")))).
  - reflexivity.
  - intros videoId video [= <-] Hv. vm_compute in Hv. injection Hv as <-.
    reflexivity.
Defined.

(** ** handlerUploadThumbnail *)

(** X11. The thumbnail handler reads the request body exactly when the
    request names a video, carries a credential that resolves to a user, the
    video exists and that user owns it. *)
Theorem thumbnail_body_read_only_for_owner ext cfg req w :
  EvFormData ∈ events_since w (snd (handlerUploadThumbnail ext cfg req w))
  <-> exists videoId video, fromOwner ext cfg req w videoId video.
Proof.
  destruct (handlerUploadThumbnail_outcomes ext cfg req w)
    as [(e & evs & Hrun & _ & Hiff)
       | (videoId & video & fd & file & Hown & _ & _ & _ & _ & Hrun)];
    rewrite Hrun; simpl.
  - rewrite (events_since_app w (with_log w (log w ++ evs)) evs eq_refl).
    exact Hiff.
  - erewrite events_since_app by reflexivity.
    split; [intros _; eauto | intros _; present].
Qed.

(** X12. A failed thumbnail upload leaves no trace: whatever the request,
    when the handler throws, the disk, the table of videos, the bucket and
    the random generator are as before, and the calls made are among token,
    JWT, record lookup and body read. *)
Theorem rejected_thumbnail_changes_nothing ext cfg req w e :
  fst (handlerUploadThumbnail ext cfg req w) = inl e ->
  let w' := snd (handlerUploadThumbnail ext cfg req w) in
  files w' = files w /\ videos w' = videos w /\ objects w' = objects w
  /\ drawn w' = drawn w
  /\ forallb gateEvent (events_since w w') = true.
Proof.
  intros Hthrow w'. subst w'.
  destruct (handlerUploadThumbnail_outcomes ext cfg req w)
    as [(e' & evs & Hrun & Hgate & _)
       | (videoId & video & fd & file & _ & _ & _ & _ & _ & Hrun)];
    rewrite Hrun in *; simpl in *; [| discriminate Hthrow].
  rewrite (events_since_app w (with_log w (log w ++ evs)) evs eq_refl).
  repeat (split; [reflexivity |]). exact Hgate.
Qed.

Lemma rejected_thumbnail_changes_nothing_witness :
  let run :=
    handlerUploadThumbnail (Sample.ext Sample.probeFailed true) Sample.cfg
      (Sample.upload "thumbnail" (Sample.fileOf 1000 "image/gif")) Sample.world in
  fst run = inl (BadRequestError "Invalid thumbnail file type")
  /\ files (snd run) = files Sample.world
  /\ videos (snd run) = videos Sample.world
  /\ objects (snd run) = objects Sample.world
  /\ drawn (snd run) = drawn Sample.world
  /\ forallb gateEvent (events_since Sample.world (snd run)) = true.
Proof.
  intros run. split; [reflexivity |].
  exact (rejected_thumbnail_changes_nothing
           (Sample.ext Sample.probeFailed true) Sample.cfg
           (Sample.upload "thumbnail" (Sample.fileOf 1000 "image/gif")) Sample.world
           (BadRequestError "Invalid thumbnail file type") eq_refl).
Defined.

(** X13. For a request of the record's owner whose form carries a
    [thumbnail] file, the upload is accepted exactly when the file is at most
    10 * 2^20 = 10485760 bytes and its declared type is image/jpeg or
    image/png; and then the answer is 200 with a null payload. *)
Theorem thumbnail_accepted_iff ext cfg req w videoId video fd file :
  fromOwner ext cfg req w videoId video ->
  body req = Some fd ->
  formData_get fd "thumbnail" = Some (FormFile file) ->
  let run := handlerUploadThumbnail ext cfg req w in
  ((exists resp, fst run = inr resp)
   <-> (file_size file <= shl32 10 20)%Z
       /\ (file_type file = "image/jpeg" \/ file_type file = "image/png"))
  /\ shl32 10 20 = 10485760%Z
  /\ forall resp, fst run = inr resp -> status resp = 200%Z /\ payload resp = None.
Proof.
  intros Hown Hbody Hget run. subst run.
  rewrite (handlerUploadThumbnail_owner ext cfg req w videoId video fd Hown Hbody).
  cbv zeta. rewrite Hget. change (shl32 10 20) with 10485760%Z.
  destruct (10485760 <? file_size file)%Z eqn:Hsize.
  { apply Z.ltb_lt in Hsize. simpl. split; [| split; [reflexivity |]].
    - split; [intros (resp & Hr); discriminate Hr | intros (Hle & _); lia].
    - intros resp Hr. discriminate Hr. }
  apply Z.ltb_ge in Hsize.
  destruct (String.eqb (file_type file) "") eqn:Hempty.
  { apply String.eqb_eq in Hempty. simpl. split; [| split; [reflexivity |]].
    - split; [intros (resp & Hr); discriminate Hr |].
      intros (_ & [Ht | Ht]); rewrite Ht in Hempty; discriminate Hempty.
    - intros resp Hr. discriminate Hr. }
  destruct (includes ["image/jpeg"; "image/png"] (file_type file)) eqn:Hinc; simpl.
  - split; [| split; [reflexivity |]].
    + split; [intros _; split; [exact Hsize | exact (includes_allowed _ Hinc)] |].
      intros _. eauto.
    + intros resp [= <-]. split; reflexivity.
  - split; [| split; [reflexivity |]].
    + split; [intros (resp & Hr); discriminate Hr |].
      intros (_ & [Ht | Ht]); rewrite Ht in Hinc; discriminate Hinc.
    + intros resp Hr. discriminate Hr.
Qed.

Lemma thumbnail_accepted_iff_witness :
  let run :=
    handlerUploadThumbnail (Sample.ext Sample.probeFailed true) Sample.cfg
      (Sample.upload "thumbnail" (Sample.fileOf 10485760 "image/png")) Sample.world in
  ((exists resp, fst run = inr resp)
   <-> (10485760 <= shl32 10 20)%Z
       /\ ("image/png" = "image/jpeg" \/ "image/png" = "image/png"))
  /\ shl32 10 20 = 10485760%Z
  /\ forall resp, fst run = inr resp -> status resp = 200%Z /\ payload resp = None.
Proof.
  apply (thumbnail_accepted_iff (Sample.ext Sample.probeFailed true) Sample.cfg
           (Sample.upload "thumbnail" (Sample.fileOf 10485760 "image/png"))
           Sample.world "v1" Sample.video
           [("thumbnail", FormFile (Sample.fileOf 10485760 "image/png"))]
           (Sample.fileOf 10485760 "image/png")).
  - repeat split; try reflexivity. discriminate.
  - reflexivity.
  - reflexivity.
Defined.

(** X14. Why a thumbnail from the record's owner is refused: a form without
    a [thumbnail] file gets "Thumbnail file missing"; a file over the cap
    gets the size message whatever its type; a file within the cap with an
    empty declared type gets "Missing Content-Type for thumbnail", and with
    any other type that is not image/jpeg or image/png gets "Invalid
    thumbnail file type".  All four are BadRequest. *)
Theorem thumbnail_rejection_reasons ext cfg req w videoId video fd :
  fromOwner ext cfg req w videoId video ->
  body req = Some fd ->
  let run := handlerUploadThumbnail ext cfg req w in
  ((forall file, formData_get fd "thumbnail" <> Some (FormFile file)) ->
     fst run = inl (BadRequestError "Thumbnail file missing"))
  /\ (forall file,
        formData_get fd "thumbnail" = Some (FormFile file) ->
        ((10485760 < file_size file)%Z ->
           fst run = inl (BadRequestError
                            "Thumbnail file exceeds the maximum allowed size of 10MB"))
        /\ ((file_size file <= 10485760)%Z -> file_type file = "" ->
            fst run = inl (BadRequestError "Missing Content-Type for thumbnail"))
        /\ ((file_size file <= 10485760)%Z -> file_type file <> "" ->
            file_type file <> "image/jpeg" -> file_type file <> "image/png" ->
            fst run = inl (BadRequestError "Invalid thumbnail file type"))).
Proof.
  intros Hown Hbody run. subst run.
  rewrite (handlerUploadThumbnail_owner ext cfg req w videoId video fd Hown Hbody).
  cbv zeta. split.
  - intros Hnone.
    destruct (formData_get fd "thumbnail") as [[s|file]|]; try reflexivity.
    exfalso. exact (Hnone file eq_refl).
  - intros file Hget. rewrite Hget. split; [| split].
    + intros Hbig. apply Z.ltb_lt in Hbig. rewrite Hbig. reflexivity.
    + intros Hle Hempty. apply Z.ltb_ge in Hle. rewrite Hle, Hempty. reflexivity.
    + intros Hle Hne Hjpeg Hpng. apply Z.ltb_ge in Hle. rewrite Hle.
      rewrite (eqb_empty_false _ Hne).
      destruct (includes ["image/jpeg"; "image/png"] (file_type file)) eqn:Hinc;
        [| reflexivity].
      destruct (includes_allowed _ Hinc) as [Ht | Ht]; contradiction.
Qed.

Lemma thumbnail_rejection_reasons_witness :
  let ext := Sample.ext Sample.probeFailed true in
  fst (handlerUploadThumbnail ext Sample.cfg
         (Sample.upload "thumbnail" (Sample.fileOf 10485761 "")) Sample.world)
  = inl (BadRequestError "Thumbnail file exceeds the maximum allowed size of 10MB")
  /\ fst (handlerUploadThumbnail ext Sample.cfg
            (Sample.upload "thumbnail" (Sample.fileOf 1000 "")) Sample.world)
     = inl (BadRequestError "Missing Content-Type for thumbnail")
  /\ fst (handlerUploadThumbnail ext Sample.cfg
            (Sample.upload "thumbnail" (Sample.fileOf 1000 "image/gif")) Sample.world)
     = inl (BadRequestError "Invalid thumbnail file type")
  /\ fst (handlerUploadThumbnail ext Sample.cfg
            (Sample.upload "video" (Sample.fileOf 1000 "image/png")) Sample.world)
     = inl (BadRequestError "Thumbnail file missing").
Proof.
  intros ext.
  assert (Hown : forall field file,
             fromOwner ext Sample.cfg (Sample.upload field file) Sample.world
               "v1" Sample.video)
    by (intros field file; repeat split; try reflexivity; discriminate).
  split; [| split; [| split]].
  - refine (proj1 (proj2 (thumbnail_rejection_reasons ext Sample.cfg
                            (Sample.upload "thumbnail" (Sample.fileOf 10485761 ""))
                            Sample.world "v1" Sample.video _ (Hown _ _) eq_refl)
                     (Sample.fileOf 10485761 "") eq_refl) _).
    reflexivity.
  - refine (proj1 (proj2 (proj2 (thumbnail_rejection_reasons ext Sample.cfg
                            (Sample.upload "thumbnail" (Sample.fileOf 1000 ""))
                            Sample.world "v1" Sample.video _ (Hown _ _) eq_refl)
                     (Sample.fileOf 1000 "") eq_refl)) _ eq_refl).
    discriminate.
  - refine (proj2 (proj2 (proj2 (thumbnail_rejection_reasons ext Sample.cfg
                            (Sample.upload "thumbnail" (Sample.fileOf 1000 "image/gif"))
                            Sample.world "v1" Sample.video _ (Hown _ _) eq_refl)
                     (Sample.fileOf 1000 "image/gif") eq_refl)) _ _ _ _);
      discriminate.
  - refine (proj1 (thumbnail_rejection_reasons ext Sample.cfg
                     (Sample.upload "video" (Sample.fileOf 1000 "image/png"))
                     Sample.world "v1" Sample.video _ (Hown _ _) eq_refl) _).
    intros file. discriminate.
Defined.

(** X15. What an accepted thumbnail upload does: it comes from the owner of
    the record, stores exactly the uploaded bytes at the thumbnail path and
    touches no other file, advances the random generator by 32 bytes, leaves
    every record but the one updated as it was, and makes seven calls in a
    fixed order.  When the record is stored under its own identifier, what is
    stored afterwards is the record found with only its thumbnail URL
    changed, to http://localhost:{port}/assets/thumbnails/{name}. *)
Theorem accepted_thumbnail_effects ext cfg req w resp :
  fst (handlerUploadThumbnail ext cfg req w) = inr resp ->
  exists videoId video fd file,
    let w' := snd (handlerUploadThumbnail ext cfg req w) in
    let name := thumbnailName ext w file in
    let path := path_join ext [assetsRoot cfg; "thumbnails"; name] in
    let url := "http://localhost:" +:+ port cfg +:+ "/assets/thumbnails/" +:+ name in
    fromOwner ext cfg req w videoId video
    /\ body req = Some fd
    /\ formData_get fd "thumbnail" = Some (FormFile file)
    /\ files w' !! path = Some (file_bytes file)
    /\ (forall other, other <> path -> files w' !! other = files w !! other)
    /\ drawn w' = (drawn w + 32)%nat
    /\ events_since w w'
       = [EvGetBearerToken; EvValidateJWT; EvGetVideo videoId; EvFormData;
          EvRandomBytes 32; EvWrite path;
          EvUpdateVideo (set_thumbnailURL video url)]
    /\ (forall other, other <> id video -> videos w' !! other = videos w !! other)
    /\ (id video = videoId ->
        videos w' !! videoId = Some (set_thumbnailURL video url))
    /\ id (set_thumbnailURL video url) = id video
    /\ userID (set_thumbnailURL video url) = userID video
    /\ title (set_thumbnailURL video url) = title video
    /\ description (set_thumbnailURL video url) = description video
    /\ videoURL (set_thumbnailURL video url) = videoURL video
    /\ thumbnailURL (set_thumbnailURL video url) = Some url.
Proof.
  intros Hok.
  destruct (handlerUploadThumbnail_outcomes ext cfg req w)
    as [(e' & evs & Hrun & _)
       | (videoId & video & fd & file & Hown & Hbody & Hget & _ & _ & Hrun)];
    rewrite Hrun in *; simpl in Hok; [discriminate Hok |].
  exists videoId, video, fd, file. cbv zeta. simpl.
  do 3 (split; [assumption |]).
  split; [apply lookup_insert_eq |].
  split; [intros other Hother; apply lookup_insert_ne; congruence |].
  split; [reflexivity |].
  split; [erewrite events_since_app by reflexivity; reflexivity |].
  split; [intros other Hother; apply lookup_alter_ne; congruence |].
  split.
  { intros Hidv. rewrite Hidv, lookup_alter_eq.
    destruct Hown as (_ & _ & _ & Hvid). rewrite Hvid. reflexivity. }
  repeat split.
Qed.

Lemma accepted_thumbnail_effects_witness :
  exists videoId video fd file,
    let ext := Sample.ext Sample.probeFailed true in
    let req := Sample.upload "thumbnail" (Sample.fileOf 1000 "image/png") in
    let w' := snd (handlerUploadThumbnail ext Sample.cfg req Sample.world) in
    let name := thumbnailName ext Sample.world file in
    let path := path_join ext [assetsRoot Sample.cfg; "thumbnails"; name] in
    let url := "http://localhost:" +:+ port Sample.cfg +:+ "/assets/thumbnails/"
               +:+ name in
    fromOwner ext Sample.cfg req Sample.world videoId video
    /\ body req = Some fd
    /\ formData_get fd "thumbnail" = Some (FormFile file)
    /\ files w' !! path = Some (file_bytes file)
    /\ (forall other, other <> path -> files w' !! other = files Sample.world !! other)
    /\ drawn w' = (drawn Sample.world + 32)%nat
    /\ events_since Sample.world w'
       = [EvGetBearerToken; EvValidateJWT; EvGetVideo videoId; EvFormData;
          EvRandomBytes 32; EvWrite path;
          EvUpdateVideo (set_thumbnailURL video url)]
    /\ (forall other, other <> id video ->
          videos w' !! other = videos Sample.world !! other)
    /\ (id video = videoId ->
        videos w' !! videoId = Some (set_thumbnailURL video url))
    /\ id (set_thumbnailURL video url) = id video
    /\ userID (set_thumbnailURL video url) = userID video
    /\ title (set_thumbnailURL video url) = title video
    /\ description (set_thumbnailURL video url) = description video
    /\ videoURL (set_thumbnailURL video url) = videoURL video
    /\ thumbnailURL (set_thumbnailURL video url) = Some url.
Proof.
  exact (accepted_thumbnail_effects (Sample.ext Sample.probeFailed true) Sample.cfg
           (Sample.upload "thumbnail" (Sample.fileOf 1000 "image/png")) Sample.world
           (respondWithJSON 200 None) eq_refl).
Defined.

(** X16. The thumbnail handler never touches the bucket and never starts a
    process, uploads or removes a file, in any run. *)
Theorem thumbnail_stays_local ext cfg req w :
  let w' := snd (handlerUploadThumbnail ext cfg req w) in
  objects w' = objects w
  /\ (forall argv, EvSpawn argv ∉ events_since w w')
  /\ (forall key path type, EvUploadVideoToS3 key path type ∉ events_since w w')
  /\ (forall path, EvRm path ∉ events_since w w').
Proof.
  intros w'. subst w'.
  destruct (handlerUploadThumbnail_outcomes ext cfg req w)
    as [(e' & evs & Hrun & Hgate & _)
       | (videoId & video & fd & file & _ & _ & _ & _ & _ & Hrun)];
    rewrite Hrun; simpl.
  - rewrite (events_since_app w (with_log w (log w ++ evs)) evs eq_refl).
    split; [reflexivity |].
    split; [| split]; intros; apply (forallb_absent gateEvent evs); auto.
  - erewrite events_since_app by reflexivity.
    split; [reflexivity |].
    split; [| split]; intros; absent.
Qed.

(** ** Thumbnail names *)

Lemma base64url_alphabet_NoDup : NoDup base64url_alphabet.
Proof. apply (bool_decide_unpack _). vm_compute. exact I. Qed.

Lemma sextet_inj (n m : N) :
  (n < 64)%N -> (m < 64)%N -> sextet n = sextet m -> n = m.
Proof.
  intros Hn Hm Heq. unfold sextet in Heq.
  apply N2Nat.inj.
  apply (proj1 (NoDup_nth base64url_alphabet "A"%char)
           (proj1 (NoDup_ListNoDup _) base64url_alphabet_NoDup));
    [change (length base64url_alphabet) with 64%nat; lia ..| exact Heq].
Qed.

Lemma to_N_inj (a b : byte) : Byte.to_N a = Byte.to_N b -> a = b.
Proof.
  intros H. pose proof (Byte.of_to_N a) as Ha. rewrite H, Byte.of_to_N in Ha.
  congruence.
Qed.

Lemma String_inj (c c' : ascii) (s s' : string) :
  String c s = String c' s' -> c = c' /\ s = s'.
Proof. intros H. injection H as Hc Hs. split; assumption. Qed.

(** Equal encodings have equal sextets, character by character. *)
Ltac sextets H :=
  repeat match type of H with
         | String _ _ = String _ _ =>
             let Hc := fresh "Hc" in
             apply String_inj in H as [Hc H];
             apply sextet_inj in Hc; [| lia | lia]
         end.

(** The encoder loses nothing: different bytes give different text. *)
Lemma base64url_inj (xs ys : list byte) : base64url xs = base64url ys -> xs = ys.
Proof.
  revert ys.
  induction xs as [| a | a b | a b c l IH] using list_ind3;
    intros [| a' [| b' [| c' l']]] H; try discriminate H; try reflexivity;
    try split_byte a; try split_byte b; try split_byte c;
    try split_byte a'; try split_byte b'; try split_byte c';
    cbn [base64url] in H; cbv zeta in H; sextets H; try discriminate H.
  - f_equal. apply to_N_inj. lia.
  - assert (Byte.to_N a = Byte.to_N a' /\ Byte.to_N b = Byte.to_N b') as [Ha Hb] by lia.
    apply to_N_inj in Ha, Hb. congruence.
  - assert (Byte.to_N a = Byte.to_N a' /\ Byte.to_N b = Byte.to_N b'
            /\ Byte.to_N c = Byte.to_N c') as (Ha & Hb & Hc') by lia.
    apply to_N_inj in Ha, Hb, Hc'. rewrite (IH _ H). congruence.
Qed.

Lemma string_app_inv_head (s t1 t2 : string) : s +:+ t1 = s +:+ t2 -> t1 = t2.
Proof.
  induction s as [| c s IH]; intros H; [exact H |].
  change (String c (s +:+ t1) = String c (s +:+ t2)) in H.
  apply String_inj in H as [_ H]. exact (IH H).
Qed.

Lemma string_app_inj_length (s1 s2 t1 t2 : string) :
  String.length s1 = String.length s2 -> s1 +:+ t1 = s2 +:+ t2 ->
  s1 = s2 /\ t1 = t2.
Proof.
  revert s2. induction s1 as [| c s1 IH]; intros [| c' s2] Hlen H;
    try discriminate Hlen.
  - split; [reflexivity | exact H].
  - change (String c (s1 +:+ t1) = String c' (s2 +:+ t2)) in H.
    apply String_inj in H as [-> H]. injection Hlen as Hlen.
    destruct (IH s2 Hlen H) as [-> ->]. split; reflexivity.
Qed.

(** A thumbnail name tells the random bytes and the declared type it was
    made from. *)
Lemma thumbnailName_inj ext (w1 w2 : World) (file1 file2 : File) :
  thumbnailName ext w1 file1 = thumbnailName ext w2 file2 ->
  map (entropy ext) (seq (drawn w1) 32) = map (entropy ext) (seq (drawn w2) 32)
  /\ file_type file1 = file_type file2.
Proof.
  unfold thumbnailName. intros H.
  apply string_app_inj_length in H as [Hb Ht].
  - split; [exact (base64url_inj _ _ Hb) |].
    exact (string_app_inv_head "." _ _ Ht).
  - rewrite !base64url_length, !length_map, !length_seq. reflexivity.
Qed.

(** X17. Two thumbnail uploads accepted one after the other never share a
    URL when the random generator gives the second one 32 bytes that differ
    from the first one's: the second upload draws the 32 bytes that follow
    those of the first, and the encoding keeps different bytes apart. *)
Theorem fresh_bytes_fresh_thumbnail ext cfg req1 req2 w resp1 resp2 v1 v2 :
  fst (handlerUploadThumbnail ext cfg req1 w) = inr resp1 ->
  fst (handlerUploadThumbnail ext cfg req2
         (snd (handlerUploadThumbnail ext cfg req1 w))) = inr resp2 ->
  map (entropy ext) (seq (drawn w) 32)
  <> map (entropy ext) (seq (drawn w + 32) 32) ->
  EvUpdateVideo v1 ∈ events_since w (snd (handlerUploadThumbnail ext cfg req1 w)) ->
  EvUpdateVideo v2
  ∈ events_since (snd (handlerUploadThumbnail ext cfg req1 w))
      (snd (handlerUploadThumbnail ext cfg req2
              (snd (handlerUploadThumbnail ext cfg req1 w)))) ->
  thumbnailURL v1 <> thumbnailURL v2.
Proof.
  intros Hok1 Hok2 Hfresh Hin1 Hin2.
  destruct (handlerUploadThumbnail_outcomes ext cfg req1 w)
    as [(e' & evs & Hrun & _)
       | (id1 & video1 & fd1 & file1 & _ & _ & _ & _ & _ & Hrun1)];
    [rewrite Hrun in Hok1; discriminate Hok1 |].
  rewrite Hrun1 in *. cbn [fst snd] in *.
  set (w1 := thumbnailStored ext cfg w id1 video1 file1) in *.
  destruct (handlerUploadThumbnail_outcomes ext cfg req2 w1)
    as [(e' & evs & Hrun & _)
       | (id2 & video2 & fd2 & file2 & _ & _ & _ & _ & _ & Hrun2)];
    [rewrite Hrun in Hok2; discriminate Hok2 |].
  rewrite Hrun2 in *. cbn [fst snd] in *.
  erewrite events_since_app in Hin1 by reflexivity.
  erewrite events_since_app in Hin2 by reflexivity.
  repeat (apply elem_of_cons in Hin1 as [Hin1 | Hin1]; [try discriminate Hin1 |]);
    [| apply elem_of_nil in Hin1; destruct Hin1].
  repeat (apply elem_of_cons in Hin2 as [Hin2 | Hin2]; [try discriminate Hin2 |]);
    [| apply elem_of_nil in Hin2; destruct Hin2].
  injection Hin1 as ->. injection Hin2 as ->. simpl.
  intros Heq. injection Heq as Heq.
  do 3 apply string_app_inv_head in Heq.
  apply thumbnailName_inj in Heq as [Hbytes _].
  exact (Hfresh Hbytes).
Qed.

Lemma fresh_bytes_fresh_thumbnail_witness :
  let ext := Sample.ext Sample.probeFailed true in
  let req := Sample.upload "thumbnail" (Sample.fileOf 1000 "image/png") in
  let first := snd (handlerUploadThumbnail ext Sample.cfg req Sample.world) in
  let second := snd (handlerUploadThumbnail ext Sample.cfg req first) in
  thumbnailURL
    (set_thumbnailURL Sample.video
       "http://localhost:8091/assets/thumbnails/AAECAwQFBgcICQoLDA0ODxAREhMUFRYXGBkaGxwdHh8.image/png")
  <> thumbnailURL
       (set_thumbnailURL
          (set_thumbnailURL Sample.video
             "http://localhost:8091/assets/thumbnails/AAECAwQFBgcICQoLDA0ODxAREhMUFRYXGBkaGxwdHh8.image/png")
          "http://localhost:8091/assets/thumbnails/ICEiIyQlJicoKSorLC0uLzAxMjM0NTY3ODk6Ozw9Pj8.image/png")
  /\ drawn second = 64%nat.
Proof.
  intros ext req first second. split; [| reflexivity].
  apply (fresh_bytes_fresh_thumbnail ext Sample.cfg req req Sample.world
           (respondWithJSON 200 None) (respondWithJSON 200 None)).
  - reflexivity.
  - reflexivity.
  - discriminate.
  - vm_compute. present.
  - vm_compute. present.
Defined.

(** X18. The checks of [handlerUploadThumbnail] ahead of the body, in their
    order: a missing or empty identifier is BadRequest "Invalid video ID"
    with no call made at all; then a credential that resolves to no user is
    Unauthorized, before the record is looked up; then an identifier with no
    record is NotFound; then a record of another user is Forbidden. *)
Theorem thumbnail_gate_errors ext cfg req w :
  let run := handlerUploadThumbnail ext cfg req w in
  (params_videoId req = None \/ params_videoId req = Some "" ->
   run = (inl (BadRequestError "Invalid video ID"), w))
  /\ (forall videoId,
        params_videoId req = Some videoId -> videoId <> "" ->
        (resolvedUser ext cfg req = None ->
         fst run = inl UserNotAuthenticatedError
         /\ EvGetVideo videoId ∉ events_since w (snd run))
        /\ (forall user,
              resolvedUser ext cfg req = Some user ->
              (videos w !! videoId = None ->
               fst run = inl (NotFoundError "Couldn't find video"))
              /\ (forall video,
                    videos w !! videoId = Some video -> userID video <> user ->
                    fst run = inl (UserForbiddenError
                                     "Not authorized to update this video")))).
Proof.
  cbv zeta. split.
  - intros [Hid | Hid]; unfold handlerUploadThumbnail; rewrite Hid; reflexivity.
  - intros videoId Hid Hne. unfold handlerUploadThumbnail, resolvedUser.
    rewrite Hid, (eqb_empty_false _ Hne). hunfold. simpl.
    destruct (getBearerToken ext (headers req)) as [token|]; simpl.
    + split.
      * intros Hnone. rewrite Hnone. simpl. split; [reflexivity |].
        erewrite events_since_app by (simpl; rewrite <- app_assoc; reflexivity).
        absent.
      * intros user Huser. rewrite Huser. simpl. split.
        -- intros Hvid. rewrite Hvid. reflexivity.
        -- intros video Hvid Hother. rewrite Hvid.
           apply String.eqb_neq in Hother. rewrite Hother. reflexivity.
    + split.
      * intros _. split; [reflexivity |].
        erewrite events_since_app by reflexivity. absent.
      * intros user Huser. discriminate Huser.
Qed.

Lemma thumbnail_gate_errors_witness :
  let ext := Sample.ext Sample.probeFailed true in
  handlerUploadThumbnail ext Sample.cfg Sample.anonymous Sample.world
  = (inl (BadRequestError "Invalid video ID"), Sample.world)
  /\ fst (handlerUploadThumbnail ext Sample.cfg (Sample.requestFor "v1" "stale")
            Sample.world)
     = inl UserNotAuthenticatedError
  /\ fst (handlerUploadThumbnail ext Sample.cfg (Sample.requestFor "v9" "alice-token")
            Sample.world)
     = inl (NotFoundError "Couldn't find video")
  /\ fst (handlerUploadThumbnail ext Sample.cfg (Sample.requestFor "v2" "alice-token")
            Sample.world)
     = inl (UserForbiddenError "Not authorized to update this video").
Proof.
  intros ext. split; [| split; [| split]].
  - apply (proj1 (thumbnail_gate_errors ext Sample.cfg Sample.anonymous Sample.world)).
    left. reflexivity.
  - refine (proj1 (proj1 (proj2 (thumbnail_gate_errors ext Sample.cfg
                                   (Sample.requestFor "v1" "stale") Sample.world)
                            "v1" eq_refl _) eq_refl)).
    discriminate.
  - refine (proj1 (proj2 (proj2 (thumbnail_gate_errors ext Sample.cfg
                                   (Sample.requestFor "v9" "alice-token") Sample.world)
                            "v9" eq_refl _) "alice" eq_refl) eq_refl).
    discriminate.
  - refine (proj2 (proj2 (proj2 (thumbnail_gate_errors ext Sample.cfg
                                   (Sample.requestFor "v2" "alice-token") Sample.world)
                            "v2" eq_refl _) "alice" eq_refl)
              Sample.videoOfBob eq_refl _); discriminate.
Defined.
